(** * bg-engine: the frame orchestrator, object identities and transforms

    A shallow embedding of [src/lve_renderer.cpp] (class [LveRenderer]),
    of [LveGameObject::createGameObject] and of [TransformComponent]
    ([src/game_object.hpp]), with the properties the specification states
    about them.

    The renderer talks to three collaborators whose code is not part of
    the embedded sources: the window ([LveWindow], GLFW), the presentation
    chain ([LveSwapChain]) and the Vulkan driver.  Their answers are inputs
    of the model: every operation takes a record with the status codes the
    backend returns to it, and the state carries a log of the calls made to
    the collaborators, in program order. *)

From Stdlib Require Import ZArith NArith List String Bool Lia Reals Lra.
From Stdlib Require Import RNsatz.
Import ListNotations.
Local Open Scope string_scope.
Local Open Scope list_scope.
Local Open Scope Z_scope.

(** ** Vulkan data, as [vulkan_core.h] has it *)

Definition VkResult := Z.
Definition VK_SUCCESS : VkResult := 0.
Definition VK_SUBOPTIMAL_KHR : VkResult := 1000001003.
Definition VK_ERROR_OUT_OF_DATE_KHR : VkResult := -1000001004.

(** A dispatchable handle is a pointer; [nullptr] is the null handle. *)
Definition VkCommandBuffer := Z.
Definition nullptr : VkCommandBuffer := 0.

Definition VkFormat := Z.

Record VkExtent2D := mkExtent { width : Z; height : Z }.

(** The loop condition of [recreateSwapChain]:
    [0 == extent.width || 0 == extent.height]. *)
Definition zeroExtent (e : VkExtent2D) : bool :=
  (0 =? width e) || (0 =? height e).

(** ** The collaborators *)

(** Modelled from the spec: [LveSwapChain] (lve_swap_chain.hpp is not among
    the sources).  A chain records the extent and the colour and depth image
    formats it was built for. *)
Record LveSwapChain := mkChain {
  swapChainExtent : VkExtent2D;
  swapChainImageFormat : VkFormat;
  swapChainDepthFormat : VkFormat
}.

(** Modelled from the spec: [compareSwapFormats], the spec's [formatsMatch]:
    it compares the colour and depth image formats of two chains. *)
Definition compareSwapFormats (this other : LveSwapChain) : bool :=
  (swapChainDepthFormat other =? swapChainDepthFormat this)
  && (swapChainImageFormat other =? swapChainImageFormat this).

(** Modelled from the spec: [LveWindow], the presentation surface, with its
    current extent and the resize notification flag. *)
Record LveWindow := mkWindow {
  winExtent : VkExtent2D;
  framebufferResized : bool
}.

(** What one return of [glfwWaitEvents] / [glfwPollEvents] did to the
    window: [Some e] when the framebuffer-resize callback ran (last) with
    extent [e], [None] when the events processed left the size alone. *)
Definition WindowEvent := option VkExtent2D.

Definition deliver (ev : WindowEvent) (win : LveWindow) : LveWindow :=
  match ev with
  | Some e => mkWindow e true
  | None => win
  end.

(** ** The renderer and the world around it *)

Record LveRenderer := mkRenderer {
  lveSwapChain : option LveSwapChain;       (* unique_ptr, None = nullptr *)
  commandBuffers : list VkCommandBuffer;
  currentImageIndex : Z;
  currentFrameIndex : Z;
  isFrameStarted : bool
}.

(** Calls made to the collaborators, logged in program order. *)
Inductive Event :=
| EvGetExtent (e : VkExtent2D)
| EvWaitEvents (ev : WindowEvent)
| EvDeviceWaitIdle
| EvConstructChain (e : VkExtent2D) (old : option LveSwapChain)
| EvAllocateCommandBuffers (count : Z)
| EvAcquireNextImage (r : VkResult)
| EvBeginCommandBuffer (cb : VkCommandBuffer) (r : VkResult)
| EvEndCommandBuffer (cb : VkCommandBuffer) (r : VkResult)
| EvSubmit (cb : VkCommandBuffer) (image : Z) (r : VkResult)
| EvResetWindowResizedFlag
| EvCmdBeginRenderPass (cb : VkCommandBuffer) (image : Z) (area : VkExtent2D)
| EvCmdSetViewport (cb : VkCommandBuffer) (area : VkExtent2D)
| EvCmdSetScissor (cb : VkCommandBuffer) (area : VkExtent2D)
| EvCmdEndRenderPass (cb : VkCommandBuffer).

Record World := mkWorld {
  renderer : LveRenderer;
  lveWindow : LveWindow;
  trace : list Event
}.

Definition withRenderer (f : LveRenderer -> LveRenderer) (w : World) : World :=
  mkWorld (f (renderer w)) (lveWindow w) (trace w).

Definition withWindow (f : LveWindow -> LveWindow) (w : World) : World :=
  mkWorld (renderer w) (f (lveWindow w)) (trace w).

Definition logged (e : Event) (w : World) : World :=
  mkWorld (renderer w) (lveWindow w) (trace w ++ [e]).

Definition set_lveSwapChain (c : option LveSwapChain) (r : LveRenderer) :=
  mkRenderer c (commandBuffers r) (currentImageIndex r)
             (currentFrameIndex r) (isFrameStarted r).
Definition set_commandBuffers (l : list VkCommandBuffer) (r : LveRenderer) :=
  mkRenderer (lveSwapChain r) l (currentImageIndex r)
             (currentFrameIndex r) (isFrameStarted r).
Definition set_currentImageIndex (i : Z) (r : LveRenderer) :=
  mkRenderer (lveSwapChain r) (commandBuffers r) i
             (currentFrameIndex r) (isFrameStarted r).
Definition set_currentFrameIndex (i : Z) (r : LveRenderer) :=
  mkRenderer (lveSwapChain r) (commandBuffers r) (currentImageIndex r)
             i (isFrameStarted r).
Definition set_isFrameStarted (b : bool) (r : LveRenderer) :=
  mkRenderer (lveSwapChain r) (commandBuffers r) (currentImageIndex r)
             (currentFrameIndex r) b.

(** ** How a member function can end *)

Inductive Outcome (A : Type) :=
| Returned (a : A) (w : World)          (* normal return *)
| Thrown (what : string) (w : World)    (* std::runtime_error *)
| AssertFailed (msg : string)           (* assert(...), compiled in, aborts *)
| Blocked (w : World)                   (* glfwWaitEvents never returns *)
| Undefined.                            (* null chain or index out of range *)
Arguments Returned {A} a w.
Arguments Thrown {A} what w.
Arguments AssertFailed {A} msg.
Arguments Blocked {A} w.
Arguments Undefined {A}.

Definition M (A : Type) := World -> Outcome A.

Definition ret {A} (a : A) : M A := fun w => Returned a w.

Definition bind {A B} (m : M A) (k : A -> M B) : M B :=
  fun w =>
    match m w with
    | Returned a w' => k a w'
    | Thrown s w' => Thrown s w'
    | AssertFailed s => AssertFailed s
    | Blocked w' => Blocked w'
    | Undefined => Undefined
    end.

Notation "x <- m ;; k" := (bind m (fun x => k))
  (at level 61, m at next level, right associativity).
Notation "m ;; k" := (bind m (fun _ => k))
  (at level 61, right associativity).

Definition throw {A} (what : string) : M A := fun w => Thrown what w.
Definition assert (b : bool) (msg : string) : M unit :=
  fun w => if b then Returned tt w else AssertFailed msg.
Definition gets {A} (f : World -> A) : M A := fun w => Returned (f w) w.
Definition modify (f : World -> World) : M unit := fun w => Returned tt (f w).
Definition emit (e : Event) : M unit := modify (logged e).
Definition undefined {A} : M A := fun _ => Undefined.
Definition blocked {A} : M A := fun w => Blocked w.

(** ** Collaborator calls *)

(** Modelled from the spec: [lveWindow.getExtent()], the surface's
    [currentExtent()]. *)
Definition getExtent : M VkExtent2D :=
  e <- gets (fun w => winExtent (lveWindow w)) ;;
  emit (EvGetExtent e) ;;
  ret e.

(** [glfwWaitEvents()] sleeps until events arrive and processes them; [ev]
    is what they do to the window. *)
Definition glfwWaitEvents (ev : WindowEvent) : M unit :=
  modify (withWindow (deliver ev)) ;;
  emit (EvWaitEvents ev).

Definition wasWindowResized : M bool :=
  gets (fun w => framebufferResized (lveWindow w)).

Definition resetWindowResizedFlag : M unit :=
  modify (withWindow (fun win => mkWindow (winExtent win) false)) ;;
  emit EvResetWindowResizedFlag.

(** What the backend answers during one run of the rebuild procedure:
    the window events each successive [glfwWaitEvents] returns with (when
    the list runs out, no further event ever arrives), and the formats of
    the chain the [LveSwapChain] constructor builds ([None] when the
    constructor throws). *)
Record RebuildEnv := mkRebuildEnv {
  wakeups : list WindowEvent;
  built : option (VkFormat * VkFormat)
}.

(** The [LveSwapChain] constructors: a fresh chain, or one migrating from the
    chain [old]. *)
Definition makeSwapChain (env : RebuildEnv) (extent : VkExtent2D)
    (old : option LveSwapChain) : M LveSwapChain :=
  emit (EvConstructChain extent old) ;;
  match built env with
  | Some (image, depth) => ret (mkChain extent image depth)
  | None => throw "swap chain construction failed"
  end.

(** ** [LveRenderer], from src/lve_renderer.cpp *)

(** The [while] loop of [recreateSwapChain]: as long as the extent last read
    has a zero side, read the extent again and then sleep in
    [glfwWaitEvents].  The recursion is on the events still to come. *)
Fixpoint waitForExtent (evs : list WindowEvent) (extent : VkExtent2D)
    : M VkExtent2D :=
  if zeroExtent extent then
    match evs with
    | [] => getExtent ;; blocked
    | ev :: evs' =>
        extent' <- getExtent ;;
        glfwWaitEvents ev ;;
        waitForExtent evs' extent'
    end
  else ret extent.

Definition recreateSwapChain (env : RebuildEnv) : M unit :=
  extent <- getExtent ;;
  extent <- waitForExtent (wakeups env) extent ;;
  emit EvDeviceWaitIdle ;;
  current <- gets (fun w => lveSwapChain (renderer w)) ;;
  match current with
  | None =>
      fresh <- makeSwapChain env extent None ;;
      modify (withRenderer (set_lveSwapChain (Some fresh)))
  | Some oldSwapChain =>
      modify (withRenderer (set_lveSwapChain None)) ;;
      new <- makeSwapChain env extent (Some oldSwapChain) ;;
      modify (withRenderer (set_lveSwapChain (Some new))) ;;
      if negb (compareSwapFormats oldSwapChain new)
      then throw "Swap chain Image or depth format has changed"
      else ret tt
  end.

(** Modelled from the spec: [getCurentCommandBuffer] (declared in
    lve_renderer.hpp, which is not among the sources): the command buffer of
    the current frame slot, [commandBuffers[currentFrameIndex]]. *)
Definition getCurentCommandBuffer : M VkCommandBuffer :=
  i <- gets (fun w => currentFrameIndex (renderer w)) ;;
  l <- gets (fun w => commandBuffers (renderer w)) ;;
  if i <? 0 then undefined
  else match nth_error l (Z.to_nat i) with
       | Some cb => ret cb
       | None => undefined
       end.

(** Dereferencing [lveSwapChain]. *)
Definition theSwapChain : M LveSwapChain :=
  c <- gets (fun w => lveSwapChain (renderer w)) ;;
  match c with
  | Some chain => ret chain
  | None => undefined
  end.

(** What the backend answers to one call of [beginFrame]. *)
Record BeginFrameEnv := mkBeginFrameEnv {
  acquireResult : VkResult;       (* of acquireNextImage *)
  acquiredImage : Z;              (* written to currentImageIndex *)
  acquireRebuild : RebuildEnv;
  beginResult : VkResult          (* of vkBeginCommandBuffer *)
}.

(** What the backend answers to one call of [endFrame]. *)
Record EndFrameEnv := mkEndFrameEnv {
  endResult : VkResult;           (* of vkEndCommandBuffer *)
  submitResult : VkResult;        (* of submitCommandBuffers *)
  submitRebuild : RebuildEnv
}.

Definition acquireNextImage (env : BeginFrameEnv) : M VkResult :=
  theSwapChain ;;
  modify (withRenderer (set_currentImageIndex (acquiredImage env))) ;;
  emit (EvAcquireNextImage (acquireResult env)) ;;
  ret (acquireResult env).

Definition submitCommandBuffers (env : EndFrameEnv) (cb : VkCommandBuffer)
    : M VkResult :=
  theSwapChain ;;
  image <- gets (fun w => currentImageIndex (renderer w)) ;;
  emit (EvSubmit cb image (submitResult env)) ;;
  ret (submitResult env).

Definition beginFrame (env : BeginFrameEnv) : M VkCommandBuffer :=
  started <- gets (fun w => isFrameStarted (renderer w)) ;;
  assert (negb started) "cannot call beginFrame while already in progress" ;;
  result <- acquireNextImage env ;;
  if result =? VK_ERROR_OUT_OF_DATE_KHR then
    recreateSwapChain (acquireRebuild env) ;;
    ret nullptr
  else if negb (result =? VK_SUCCESS) && negb (result =? VK_SUBOPTIMAL_KHR)
  then throw "failed to acquire swap chain image!"
  else
    modify (withRenderer (set_isFrameStarted true)) ;;
    commandBuffer <- getCurentCommandBuffer ;;
    emit (EvBeginCommandBuffer commandBuffer (beginResult env)) ;;
    if negb (beginResult env =? VK_SUCCESS)
    then throw "failed to begin recording command buffer!"
    else ret commandBuffer.

Definition beginSwapChainRenderPass (commandBuffer : VkCommandBuffer)
    : M unit :=
  started <- gets (fun w => isFrameStarted (renderer w)) ;;
  assert started
    "cannot call beginSwapChainRenderPass if frame is not in progress" ;;
  current <- getCurentCommandBuffer ;;
  assert (commandBuffer =? current)
    "cant begin render pass on command buffer froma different frame" ;;
  chain <- theSwapChain ;;
  image <- gets (fun w => currentImageIndex (renderer w)) ;;
  emit (EvCmdBeginRenderPass commandBuffer image (swapChainExtent chain)) ;;
  emit (EvCmdSetViewport commandBuffer (swapChainExtent chain)) ;;
  emit (EvCmdSetScissor commandBuffer (swapChainExtent chain)).

Definition endSwapChainRenderPass (commandBuffer : VkCommandBuffer)
    : M unit :=
  started <- gets (fun w => isFrameStarted (renderer w)) ;;
  assert started
    "cannot call endSwapChainRenderPass if frame is not in progress" ;;
  current <- getCurentCommandBuffer ;;
  assert (commandBuffer =? current)
    "cant end render pass on command buffer froma different frame" ;;
  emit (EvCmdEndRenderPass commandBuffer).

Section FramesInFlight.

(** [LveSwapChain::MAX_FRAMES_IN_FLIGHT], a constant of lve_swap_chain.hpp,
    which is not among the sources: the spec's F.  It is an [int]. *)
Variable MAX_FRAMES_IN_FLIGHT : Z.

Definition endFrame (env : EndFrameEnv) : M unit :=
  started <- gets (fun w => isFrameStarted (renderer w)) ;;
  assert started "cannot call end frame while frame is not in progress" ;;
  commandBuffer <- getCurentCommandBuffer ;;
  emit (EvEndCommandBuffer commandBuffer (endResult env)) ;;
  if negb (endResult env =? VK_SUCCESS)
  then throw "failed to record command buffer!"
  else
    result <- submitCommandBuffers env commandBuffer ;;
    resized <- wasWindowResized ;;
    (if (result =? VK_ERROR_OUT_OF_DATE_KHR) || (result =? VK_SUBOPTIMAL_KHR)
        || resized
     then resetWindowResizedFlag ;; recreateSwapChain (submitRebuild env)
     else ret tt) ;;
    if negb (result =? VK_SUCCESS)
    then throw "failed to submit command buffers!"
    else
      modify (withRenderer (set_isFrameStarted false)) ;;
      i <- gets (fun w => currentFrameIndex (renderer w)) ;;
      modify (withRenderer
                (set_currentFrameIndex (Z.rem (i + 1) MAX_FRAMES_IN_FLIGHT))).

(** What the backend answers to the constructor: the first chain, and the
    result of [vkAllocateCommandBuffers] with the handles it wrote. *)
Record ConstructorEnv := mkConstructorEnv {
  firstBuild : RebuildEnv;
  allocResult : VkResult;
  allocated : list VkCommandBuffer
}.

(** [commandBuffers.resize(MAX_FRAMES_IN_FLIGHT)] followed by
    [vkAllocateCommandBuffers] writing into [commandBuffers.data()]: slot
    [i] holds the [i]-th handle the driver wrote, and stays null when the
    driver wrote none. *)
Definition createCommandBuffers (env : ConstructorEnv) : M unit :=
  let count := Z.to_nat MAX_FRAMES_IN_FLIGHT in
  modify (withRenderer (set_commandBuffers (repeat nullptr count))) ;;
  emit (EvAllocateCommandBuffers (Z.of_nat count)) ;;
  if negb (allocResult env =? VK_SUCCESS)
  then throw "failed to allocate command buffers!"
  else
    modify (withRenderer
      (set_commandBuffers
         (map (fun i => nth i (allocated env) nullptr) (seq 0 count)))).

(** The constructor [LveRenderer(window, device)].  The members start as
    the spec has the idle orchestrator: no chain, no frame in progress,
    frame slot 0; [image0] is the uninitialised [currentImageIndex]. *)
Definition newWorld (window : LveWindow) (image0 : Z) : World :=
  mkWorld (mkRenderer None [] image0 0 false) window [].

Definition construct (env : ConstructorEnv) : M unit :=
  recreateSwapChain (firstBuild env) ;;
  createCommandBuffers env.

(** ** The frame loop, as a sequence of calls *)

(** The calls a client such as [FirstApp::run] makes, each with the
    backend's answers to it. *)
Inductive Call :=
| CallPollEvents (ev : WindowEvent)
| CallBeginFrame (env : BeginFrameEnv)
| CallBeginSwapChainRenderPass (cb : VkCommandBuffer)
| CallEndSwapChainRenderPass (cb : VkCommandBuffer)
| CallEndFrame (env : EndFrameEnv).

(** What the client sees of a call that returned. *)
Inductive Observation :=
| ObsPollEvents
| ObsBeginFrame (returned : VkCommandBuffer)
| ObsBeginSwapChainRenderPass (cb : VkCommandBuffer)
| ObsEndSwapChainRenderPass (cb : VkCommandBuffer)
| ObsEndFrame.

Definition call (c : Call) : M Observation :=
  match c with
  | CallPollEvents ev =>
      modify (withWindow (deliver ev)) ;; ret ObsPollEvents
  | CallBeginFrame env =>
      cb <- beginFrame env ;; ret (ObsBeginFrame cb)
  | CallBeginSwapChainRenderPass cb =>
      beginSwapChainRenderPass cb ;; ret (ObsBeginSwapChainRenderPass cb)
  | CallEndSwapChainRenderPass cb =>
      endSwapChainRenderPass cb ;; ret (ObsEndSwapChainRenderPass cb)
  | CallEndFrame env =>
      endFrame env ;; ret ObsEndFrame
  end.

(** A fatal error or a failed assertion ends the process: the calls after
    it are never made. *)
Fixpoint run (cs : list Call) : M (list Observation) :=
  match cs with
  | [] => ret []
  | c :: cs' =>
      o <- call c ;;
      os <- run cs' ;;
      ret (o :: os)
  end.

(** The frame is in progress when, of the [beginFrame] and [endFrame] calls
    seen so far, the last one is a [beginFrame] that returned a command
    buffer. *)
Fixpoint frameInProgress (started : bool) (history : list Observation)
    : bool :=
  match history with
  | [] => started
  | ObsBeginFrame cb :: h => frameInProgress (negb (cb =? nullptr)) h
  | ObsEndFrame :: h => frameInProgress false h
  | _ :: h => frameInProgress started h
  end.

(** The number of completed frames: the [endFrame] calls that returned. *)
Fixpoint completedFrames (history : list Observation) : Z :=
  match history with
  | [] => 0
  | ObsEndFrame :: h => 1 + completedFrames h
  | _ :: h => completedFrames h
  end.

(** What the constructor establishes and every call keeps: a chain, one
    non-null command buffer per frame slot, and a frame index that names a
    slot. *)
Definition Ready (w : World) : Prop :=
  lveSwapChain (renderer w) <> None
  /\ Z.of_nat (List.length (commandBuffers (renderer w))) = MAX_FRAMES_IN_FLIGHT
  /\ Forall (fun cb => cb <> nullptr) (commandBuffers (renderer w))
  /\ 0 <= currentFrameIndex (renderer w) < MAX_FRAMES_IN_FLIGHT.

(** What the Vulkan specification promises of a successful
    [vkAllocateCommandBuffers]: as many handles as asked for, none null. *)
Definition allocationContract (env : ConstructorEnv) : Prop :=
  Z.of_nat (List.length (allocated env)) = MAX_FRAMES_IN_FLIGHT
  /\ Forall (fun cb => cb <> nullptr) (allocated env).

End FramesInFlight.

(** ** Reading traces *)

(** The events of the wait loop. *)
Definition isPoll (e : Event) : bool :=
  match e with
  | EvGetExtent _ | EvWaitEvents _ => true
  | _ => false
  end.

(** The extents the surface reported, in order. *)
Fixpoint reports (t : list Event) : list VkExtent2D :=
  match t with
  | [] => []
  | EvGetExtent e :: t' => e :: reports t'
  | _ :: t' => reports t'
  end.

Definition isConstruct (e : Event) : bool :=
  match e with
  | EvConstructChain _ _ => true
  | _ => false
  end.

Definition isBeginCommandBuffer (e : Event) : bool :=
  match e with
  | EvBeginCommandBuffer _ _ => true
  | _ => false
  end.

(** The environment lets the wait loop end: reading the extent before each
    sleep, the renderer eventually reads one with no zero side.  [read] is
    the extent read last, [win] the window as it is now. *)
Fixpoint extentArrives (evs : list WindowEvent) (read : VkExtent2D)
    (win : LveWindow) : bool :=
  if zeroExtent read then
    match evs with
    | [] => false
    | ev :: evs' => extentArrives evs' (winExtent win) (deliver ev win)
    end
  else true.

Definition waitEnds (env : RebuildEnv) (win : LveWindow) : bool :=
  extentArrives (wakeups env) (winExtent win) win.

(** Reading a world out of an outcome, when it has one. *)
Definition worldOf {A} (o : Outcome A) : option World :=
  match o with
  | Returned _ w | Thrown _ w | Blocked w => Some w
  | AssertFailed _ | Undefined => None
  end.

(** ** The frame lifecycle *)

(** The command buffer of the current frame slot, if the slot exists. *)
Definition currentSlot (w : World) : option VkCommandBuffer :=
  if currentFrameIndex (renderer w) <? 0 then None
  else nth_error (commandBuffers (renderer w))
                 (Z.to_nat (currentFrameIndex (renderer w))).

(** The world right after [acquireNextImage] returned. *)
Definition acquired (env : BeginFrameEnv) (w : World) : World :=
  logged (EvAcquireNextImage (acquireResult env))
         (withRenderer (set_currentImageIndex (acquiredImage env)) w).

(** The world once [endFrame] has ended and submitted the command buffer. *)
Definition submitted (env : EndFrameEnv) (cb : VkCommandBuffer) (w : World)
    : World :=
  logged (EvSubmit cb (currentImageIndex (renderer w)) (submitResult env))
         (logged (EvEndCommandBuffer cb (endResult env)) w).

(** The world after [resetWindowResizedFlag]; in [endFrame] the rebuild
    starts there. *)
Definition flagReset (w : World) : World :=
  logged EvResetWindowResizedFlag
         (withWindow (fun win => mkWindow (winExtent win) false) w).

(** The last lines of [endFrame], after the rebuild decision. *)
Definition finishFrame (F : Z) (env : EndFrameEnv) (w : World) : Outcome unit :=
  if submitResult env =? VK_SUCCESS
  then Returned tt
         (withRenderer
            (set_currentFrameIndex
               (Z.rem (currentFrameIndex (renderer w) + 1) F))
            (withRenderer (set_isFrameStarted false) w))
  else Thrown "failed to submit command buffers!" w.

(** The rebuild decision of [endFrame]. *)
Definition rebuildTriggered (env : EndFrameEnv) (w : World) : bool :=
  (submitResult env =? VK_ERROR_OUT_OF_DATE_KHR)
  || (submitResult env =? VK_SUBOPTIMAL_KHR)
  || framebufferResized (lveWindow w).

(** The events of a rebuild. *)
Definition isRebuildEvent (e : Event) : bool :=
  match e with
  | EvGetExtent _ | EvWaitEvents _ | EvDeviceWaitIdle
  | EvConstructChain _ _ => true
  | _ => false
  end.

(** ** A concrete renderer: two frames in flight, an 800 x 600 window *)

Definition demoWindow : LveWindow := mkWindow (mkExtent 800 600) false.

Definition demoBuild : RebuildEnv := mkRebuildEnv [] (Some (44, 126)).

Definition demoConstructor : ConstructorEnv :=
  mkConstructorEnv demoBuild VK_SUCCESS [101; 102].

Definition demoChain : LveSwapChain := mkChain (mkExtent 800 600) 44 126.

(** The world the constructor leaves. *)
Definition demoWorld : World :=
  mkWorld (mkRenderer (Some demoChain) [101; 102] 0 0 false) demoWindow
    [EvGetExtent (mkExtent 800 600); EvDeviceWaitIdle;
     EvConstructChain (mkExtent 800 600) None;
     EvAllocateCommandBuffers 2].

Definition demoBegin (acquire : VkResult) : BeginFrameEnv :=
  mkBeginFrameEnv acquire 1 demoBuild VK_SUCCESS.

Definition demoEnd (submit : VkResult) : EndFrameEnv :=
  mkEndFrameEnv VK_SUCCESS submit demoBuild.

(** The same world with a frame in progress. *)
Definition demoFrame : World :=
  mkWorld (mkRenderer (Some demoChain) [101; 102] 1 0 true) demoWindow [].

(** One full frame: begin, render pass, end. *)
Definition demoFrameCalls : list Call :=
  [CallPollEvents None;
   CallBeginFrame (demoBegin VK_SUCCESS);
   CallBeginSwapChainRenderPass 101;
   CallEndSwapChainRenderPass 101;
   CallEndFrame (demoEnd VK_SUCCESS)].

(** The next frame, on slot 1, with a resize noticed in between. *)
Definition demoNextFrameCalls : list Call :=
  [CallPollEvents (Some (mkExtent 1024 768));
   CallBeginFrame (demoBegin VK_SUCCESS);
   CallBeginSwapChainRenderPass 102;
   CallEndSwapChainRenderPass 102;
   CallEndFrame (demoEnd VK_SUCCESS)].

Definition worldAfter (cs : list Call) (w : World) : World :=
  match run 2 cs w with
  | Returned _ w' => w'
  | _ => w
  end.

Definition observed (cs : list Call) (w : World) : list Observation :=
  match run 2 cs w with
  | Returned obs _ => obs
  | _ => []
  end.

(** ** Object identities, from src/game_object.hpp *)

Module GameObject.

(** [id_t] is [unsigned int]: 32 bits, arithmetic modulo 2^32. *)
Definition id_t := Z.
Definition id_modulus : Z := 2 ^ 32.

(** Of a game object only the identity matters here. *)
Record LveGameObject := mkGameObject { getId : id_t }.

(** [createGameObject], with the function-local static [currentId] passed
    in and out: [return LveGameObject{currentId++};]. *)
Definition createGameObject (currentId : id_t) : LveGameObject * id_t :=
  (mkGameObject currentId, (currentId + 1) mod id_modulus).

(** The counter after [n] creations; it starts at 0. *)
Definition counterAfter (n : N) : id_t :=
  N.iter n (fun currentId => snd (createGameObject currentId)) 0.

(** The id of the object made by creation number [n], counting from 0. *)
Definition idOfCreation (n : N) : id_t :=
  getId (fst (createGameObject (counterAfter n))).

End GameObject.

(** ** Transforms, from src/game_object.hpp *)

Module Transform.

Local Open Scope R_scope.

(** [glm::vec3], [glm::vec4] and [glm::mat4] (four columns), over the real
    numbers: the arithmetic is exact, where the program computes in
    [float]. *)
Record vec3 := mkVec3 { x3 : R; y3 : R; z3 : R }.
Record vec4 := mkVec4 { x4 : R; y4 : R; z4 : R; w4 : R }.
Record mat4x4 := mkMat4 { col0 : vec4; col1 : vec4; col2 : vec4; col3 : vec4 }.

Record TransformComponent := mkTransform {
  translation : vec3;
  scale : vec3;
  rotation : vec3
}.

(** The member initialisers: no offset, scale 1, no rotation. *)
Definition defaultTransform : TransformComponent :=
  mkTransform (mkVec3 0 0 0) (mkVec3 1 1 1) (mkVec3 0 0 0).

(** [m * v]: the combination of the columns of [m] by the entries of [v]. *)
Definition mulVec (m : mat4x4) (v : vec4) : vec4 :=
  mkVec4
    (x4 (col0 m) * x4 v + x4 (col1 m) * y4 v + x4 (col2 m) * z4 v
     + x4 (col3 m) * w4 v)
    (y4 (col0 m) * x4 v + y4 (col1 m) * y4 v + y4 (col2 m) * z4 v
     + y4 (col3 m) * w4 v)
    (z4 (col0 m) * x4 v + z4 (col1 m) * y4 v + z4 (col2 m) * z4 v
     + z4 (col3 m) * w4 v)
    (w4 (col0 m) * x4 v + w4 (col1 m) * y4 v + w4 (col2 m) * z4 v
     + w4 (col3 m) * w4 v).

(** [a * b], column by column. *)
Definition mul (a b : mat4x4) : mat4x4 :=
  mkMat4 (mulVec a (col0 b)) (mulVec a (col1 b))
         (mulVec a (col2 b)) (mulVec a (col3 b)).

Definition Translate (t : vec3) : mat4x4 :=
  mkMat4 (mkVec4 1 0 0 0) (mkVec4 0 1 0 0) (mkVec4 0 0 1 0)
         (mkVec4 (x3 t) (y3 t) (z3 t) 1).

Definition Scale (s : vec3) : mat4x4 :=
  mkMat4 (mkVec4 (x3 s) 0 0 0) (mkVec4 0 (y3 s) 0 0) (mkVec4 0 0 (z3 s) 0)
         (mkVec4 0 0 0 1).

(** The rotations about the axes, by an angle in radians. *)
Definition Rx (a : R) : mat4x4 :=
  mkMat4 (mkVec4 1 0 0 0) (mkVec4 0 (cos a) (sin a) 0)
         (mkVec4 0 (- sin a) (cos a) 0) (mkVec4 0 0 0 1).

Definition Ry (a : R) : mat4x4 :=
  mkMat4 (mkVec4 (cos a) 0 (- sin a) 0) (mkVec4 0 1 0 0)
         (mkVec4 (sin a) 0 (cos a) 0) (mkVec4 0 0 0 1).

Definition Rz (a : R) : mat4x4 :=
  mkMat4 (mkVec4 (cos a) (sin a) 0 0) (mkVec4 (- sin a) (cos a) 0 0)
         (mkVec4 0 0 1 0) (mkVec4 0 0 0 1).

(** Modelled from the spec: [TransformComponent::mat4()], which
    game_object.hpp declares and no source defines.  The spec and the
    comment at the declaration give it as Translate * Ry * Rx * Rz * Scale,
    with the Tait-Bryan angles Y(1), X(2), Z(3). *)
Definition mat4 (t : TransformComponent) : mat4x4 :=
  mul (Translate (translation t))
    (mul (Ry (y3 (rotation t)))
       (mul (Rx (x3 (rotation t)))
          (mul (Rz (z3 (rotation t))) (Scale (scale t))))).

(** The transform [FirstApp::loadGameObjects] gives the vase:
    [translation = {.0f, 0.5f, 2.5f}], [scale = glm::vec3(3.f)]. *)
Definition vaseTransform : TransformComponent :=
  mkTransform (mkVec3 0 (1/2) (5/2)) (mkVec3 3 3 3)
              (rotation defaultTransform).

(** The upper-left 3 x 3 part of a matrix, as its three columns. *)
Definition linearPart (m : mat4x4) : vec3 * vec3 * vec3 :=
  (mkVec3 (x4 (col0 m)) (y4 (col0 m)) (z4 (col0 m)),
   mkVec3 (x4 (col1 m)) (y4 (col1 m)) (z4 (col1 m)),
   mkVec3 (x4 (col2 m)) (y4 (col2 m)) (z4 (col2 m))).

Definition translationColumn (m : mat4x4) : vec3 :=
  mkVec3 (x4 (col3 m)) (y4 (col3 m)) (z4 (col3 m)).

End Transform.

(** ** The destructor, and the client of the renderer *)

Section Client.

Variable MAX_FRAMES_IN_FLIGHT : Z.

(** [static_cast<float>] of a buffer count, as the integer value of the
    [float] it gives.  Which neighbour an unrepresentable count is rounded
    to is left to the implementation. *)
Variable toFloat : Z -> Z.

(** [freeCommandBuffers]: [vkFreeCommandBuffers] is called with the count
    [static_cast<float>(commandBuffers.size())], converted on to [uint32_t],
    and with [commandBuffers.data()]; then the vector is cleared.  The
    result is what the driver is handed: the count and the handles it reads.
    A count that does not fit [uint32_t], or that is larger than the vector,
    is undefined behaviour. *)
Definition freeCommandBuffers : M (Z * list VkCommandBuffer) :=
  l <- gets (fun w => commandBuffers (renderer w)) ;;
  let count := toFloat (Z.of_nat (List.length l)) in
  if (count <? 0) || (2 ^ 32 <=? count) || (Z.of_nat (List.length l) <? count)
  then undefined
  else
    modify (withRenderer (set_commandBuffers [])) ;;
    ret (count, firstn (Z.to_nat count) l).

(** [~LveRenderer()]. *)
Definition destructor : M (Z * list VkCommandBuffer) := freeCommandBuffers.

(** What the backend answers during one iteration of the loop of
    [FirstApp::run]. *)
Record IterationEnv := mkIterationEnv {
  polled : WindowEvent;           (* what glfwPollEvents did to the window *)
  frameBegin : BeginFrameEnv;
  frameEnd : EndFrameEnv
}.

(** [lveRenderer.getAspectRatio()] reads the extent of the chain. *)
Definition getAspectRatio : M unit := theSwapChain ;; ret tt.

(** [simpleRenderSystem.renderGameObjects(commandBuffer, gameObjects,
    camera)] records draws into the command buffer; it is handed neither
    the renderer nor the window. *)
Definition renderGameObjects (commandBuffer : VkCommandBuffer) : M unit :=
  ret tt.

(** One iteration of the [while] loop of [FirstApp::run]; the result tells
    whether a frame was drawn.  The camera and the controller work on
    objects of their own. *)
Definition frameIteration (it : IterationEnv) : M bool :=
  modify (withWindow (deliver (polled it))) ;;
  getAspectRatio ;;
  commandBuffer <- beginFrame (frameBegin it) ;;
  if commandBuffer =? nullptr then ret false
  else
    beginSwapChainRenderPass commandBuffer ;;
    renderGameObjects commandBuffer ;;
    endSwapChainRenderPass commandBuffer ;;
    endFrame MAX_FRAMES_IN_FLIGHT (frameEnd it) ;;
    ret true.

(** The loop, for as many iterations as [shouldClose] answers no; the
    result is the number of frames drawn. *)
Fixpoint frameLoop (its : list IterationEnv) : M Z :=
  match its with
  | [] => ret 0
  | it :: its' =>
      drawn <- frameIteration it ;;
      n <- frameLoop its' ;;
      ret ((if drawn then 1 else 0) + n)
  end.

(** [FirstApp::run], from the loop on. *)
Definition runApp (its : list IterationEnv) : M Z :=
  n <- frameLoop its ;;
  emit EvDeviceWaitIdle ;;
  ret n.

End Client.

(** Rounding a count to the nearest [float] (24 significant bits), ties to
    even: the conversion of the usual implementations. *)
Definition roundToFloat (n : Z) : Z :=
  if n <? 2 ^ 24 then n
  else
    let ulp := 2 ^ (Z.log2 n - 23) in
    let q := n / ulp in
    let r := n mod ulp in
    if 2 * r <? ulp then q * ulp
    else if ulp <? 2 * r then (q + 1) * ulp
    else if Z.even q then q * ulp else (q + 1) * ulp.

(** The scalar product of two [glm::vec3]. *)
Definition dot3 (a b : Transform.vec3) : R :=
  (Transform.x3 a * Transform.x3 b + Transform.y3 a * Transform.y3 b
   + Transform.z3 a * Transform.z3 b)%R.

(** * Properties *)

(** ** Basic facts *)

Arguments recreateSwapChain : simpl never.

Ltac run_monad :=
  cbv [bind ret gets modify emit throw assert undefined blocked
       getExtent glfwWaitEvents wasWindowResized resetWindowResizedFlag
       makeSwapChain theSwapChain getCurentCommandBuffer
       acquireNextImage submitCommandBuffers];
  cbn [renderer lveWindow trace withRenderer withWindow logged
       lveSwapChain commandBuffers currentImageIndex currentFrameIndex
       isFrameStarted set_lveSwapChain set_commandBuffers
       set_currentImageIndex set_currentFrameIndex set_isFrameStarted
       winExtent framebufferResized].

(** The wait loop, in full: it ends with a non-zero extent, the one reported
    last, after reports that were all zero; or it sleeps for ever.  It
    touches the window and the log only, and logs nothing but its polls. *)
Lemma waitForExtent_outcome (evs : list WindowEvent) :
  forall (extent : VkExtent2D) (w : World),
    (exists e w' polls zeros,
        waitForExtent evs extent w = Returned e w'
        /\ extentArrives evs extent (lveWindow w) = true
        /\ zeroExtent e = false
        /\ renderer w' = renderer w
        /\ trace w' = trace w ++ polls
        /\ forallb isPoll polls = true
        /\ extent :: reports polls = zeros ++ [e]
        /\ forallb zeroExtent zeros = true)
    \/ (exists w' polls,
        waitForExtent evs extent w = Blocked w'
        /\ extentArrives evs extent (lveWindow w) = false
        /\ renderer w' = renderer w
        /\ trace w' = trace w ++ polls
        /\ forallb isPoll polls = true).
Proof.
  induction evs as [|ev evs IH]; intros extent w;
    cbn [waitForExtent extentArrives]; destruct (zeroExtent extent) eqn:Hz.
  - right. run_monad. eexists _, [_]. repeat split; reflexivity.
  - left. exists extent, w, [], []. run_monad. rewrite app_nil_r.
    repeat split; auto.
  - run_monad.
    match goal with
    | |- context [waitForExtent evs ?x ?v] =>
        destruct (IH x v)
          as [(e & w' & polls & zeros & He & Ha & Hnz & Hr & Ht & Hp & Hrep & Hzs)
             |(w' & polls & He & Ha & Hr & Ht & Hp)]
    end; cbn [renderer lveWindow trace logged withWindow] in *.
    + left. exists e, w', (EvGetExtent (winExtent (lveWindow w))
                             :: EvWaitEvents ev :: polls), (extent :: zeros).
      rewrite He, Ht, <- !app_assoc. cbn [app reports forallb isPoll].
      rewrite Hrep, Hz, Hzs. repeat split; auto.
    + right. exists w', (EvGetExtent (winExtent (lveWindow w))
                           :: EvWaitEvents ev :: polls).
      rewrite He, Ht, <- !app_assoc. cbn [app forallb isPoll].
      repeat split; auto.
  - left. exists extent, w, [], []. run_monad. rewrite app_nil_r.
    repeat split; auto.
Qed.

(** The rebuild when the wait never ends: nothing but polls happened. *)
Lemma recreateSwapChain_blocks (env : RebuildEnv) (w : World) :
  waitEnds env (lveWindow w) = false ->
  exists w' polls,
    hd_error polls = Some (EvGetExtent (winExtent (lveWindow w)))
    /\ recreateSwapChain env w = Blocked w'
    /\ renderer w' = renderer w
    /\ trace w' = trace w ++ polls
    /\ forallb isPoll polls = true.
Proof.
  unfold waitEnds, recreateSwapChain. intros Hw.
  unfold bind at 1. unfold getExtent at 1. run_monad.
  match goal with
  | |- context [waitForExtent ?evs ?x ?v] =>
      destruct (waitForExtent_outcome evs x v)
        as [(e & w' & polls & zeros & He & Ha & _)
           |(w' & polls & He & Ha & Hr & Ht & Hp)]
  end; cbn [renderer lveWindow trace logged] in *.
  - congruence.
  - exists w', (EvGetExtent (winExtent (lveWindow w)) :: polls).
    rewrite He, Ht, <- app_assoc. repeat split; auto.
Qed.

(** The rebuild when the wait ends, in full: the polls, then the wait for
    the device, then the construction of the chain with the extent reported
    last, and the format check against the predecessor. *)
Lemma recreateSwapChain_ends (env : RebuildEnv) (w : World) :
  waitEnds env (lveWindow w) = true ->
  exists e win' polls zeros,
    hd_error polls = Some (EvGetExtent (winExtent (lveWindow w)))
    /\ forallb isPoll polls = true
    /\ reports polls = zeros ++ [e]
    /\ forallb zeroExtent zeros = true
    /\ zeroExtent e = false
    /\ let world c :=
         mkWorld (set_lveSwapChain c (renderer w)) win'
           (trace w ++ polls ++
              [EvDeviceWaitIdle;
               EvConstructChain e (lveSwapChain (renderer w))]) in
       recreateSwapChain env w =
       match built env with
       | None => Thrown "swap chain construction failed" (world None)
       | Some (image, depth) =>
           let new := mkChain e image depth in
           match lveSwapChain (renderer w) with
           | None => Returned tt (world (Some new))
           | Some old =>
               if compareSwapFormats old new
               then Returned tt (world (Some new))
               else Thrown "Swap chain Image or depth format has changed"
                           (world (Some new))
           end
       end.
Proof.
  unfold waitEnds, recreateSwapChain. intros Hw.
  unfold bind at 1. unfold getExtent at 1. run_monad.
  match goal with
  | |- context [waitForExtent ?evs ?x ?v] =>
      destruct (waitForExtent_outcome evs x v)
        as [(e & w' & polls & zeros & He & Ha & Hnz & Hr & Ht & Hp & Hrep & Hzs)
           |(w' & polls & He & Ha & _)]
  end; cbn [renderer lveWindow trace logged] in *; [|congruence].
  exists e, (lveWindow w'), (EvGetExtent (winExtent (lveWindow w)) :: polls),
    zeros.
  rewrite He. destruct w' as [r' win' t']; cbn [renderer lveWindow trace] in *.
  subst r' t'. cbn [forallb isPoll reports andb].
  repeat split; auto.
  destruct w as [[chain bufs img idx started] win t].
  cbn [renderer lveWindow trace lveSwapChain set_lveSwapChain commandBuffers
       currentImageIndex currentFrameIndex isFrameStarted].
  destruct chain as [old|]; destruct (built env) as [[image depth]|];
    run_monad; try destruct (compareSwapFormats old (mkChain e image depth));
    cbv [withRenderer logged set_lveSwapChain]; cbn;
    rewrite <- ?app_assoc; reflexivity.
Qed.

Lemma compareSwapFormats_true (a b : LveSwapChain) :
  compareSwapFormats a b = true <->
  swapChainImageFormat b = swapChainImageFormat a
  /\ swapChainDepthFormat b = swapChainDepthFormat a.
Proof.
  unfold compareSwapFormats. rewrite andb_true_iff, !Z.eqb_eq. tauto.
Qed.

(** ** The rebuild procedure *)

(** C5. In every execution of [recreateSwapChain] no chain is constructed
    while the surface reports an extent with a zero side (the reports are
    the answers of [getExtent]).  An execution that
    constructs a chain (it returns, or it throws after the construction) has
    added to the log, in this order: the polls of the wait loop, whose
    extent reports are all zero except the last one; the wait for the
    device; one construction, with the extent reported last, which has no
    zero side, migrating from the chain the renderer held.  An execution
    that never leaves the wait loop has logged polls only. *)
Theorem rebuild_waits_for_extent (env : RebuildEnv) (w : World) :
  match recreateSwapChain env w with
  | Returned _ w' | Thrown _ w' =>
      exists polls zeros e,
        trace w' = trace w ++ polls ++
                     [EvDeviceWaitIdle;
                      EvConstructChain e (lveSwapChain (renderer w))]
        /\ forallb isPoll polls = true
        /\ reports polls = zeros ++ [e]
        /\ forallb zeroExtent zeros = true
        /\ zeroExtent e = false
  | Blocked w' =>
      exists polls,
        trace w' = trace w ++ polls /\ forallb isPoll polls = true
  | AssertFailed _ | Undefined => False
  end.
Proof.
  destruct (waitEnds env (lveWindow w)) eqn:Hw.
  - destruct (recreateSwapChain_ends env w Hw)
      as (e & win' & polls & zeros & Hhd & Hp & Hrep & Hzs & Hnz & Hrun).
    cbv zeta in Hrun. rewrite Hrun.
    destruct (built env) as [[image depth]|];
      [destruct (lveSwapChain (renderer w)) as [old|];
       [destruct (compareSwapFormats _ _)|]|];
      exists polls, zeros, e; cbn [trace]; auto.
  - destruct (recreateSwapChain_blocks env w Hw)
      as (w' & polls & Hhd & Hrun & _ & Ht & Hp).
    rewrite Hrun. exists polls; auto.
Qed.

(** The scenario of the spec: the surface reports (0,0), (0,0) and then
    (800,600); the chain is constructed once, after the last report.  The
    loop reads the extent before it sleeps, so it takes one more wake-up
    after the resize to leave. *)
Example rebuild_after_minimise :
  let window := mkWindow (mkExtent 0 0) false in
  let env := mkRebuildEnv [None; Some (mkExtent 800 600); None] (Some (44, 126)) in
  option_map trace
    (worldOf (recreateSwapChain env
                (mkWorld (mkRenderer None [] 0 0 false) window []))) =
  Some [EvGetExtent (mkExtent 0 0);
        EvGetExtent (mkExtent 0 0); EvWaitEvents None;
        EvGetExtent (mkExtent 0 0); EvWaitEvents (Some (mkExtent 800 600));
        EvGetExtent (mkExtent 800 600); EvWaitEvents None;
        EvDeviceWaitIdle;
        EvConstructChain (mkExtent 800 600) None].
Proof. reflexivity. Qed.

(** The extent the chain is built with is the one read before the last
    sleep: what that last wake-up does to the window is not looked at. *)
Example rebuild_uses_last_read :
  let window := mkWindow (mkExtent 0 0) false in
  let env := mkRebuildEnv [Some (mkExtent 800 600); Some (mkExtent 0 0)]
                          (Some (44, 126)) in
  match recreateSwapChain env
          (mkWorld (mkRenderer None [] 0 0 false) window []) with
  | Returned _ w' =>
      lveSwapChain (renderer w')
      = Some (mkChain (mkExtent 800 600) 44 126)
      /\ winExtent (lveWindow w') = mkExtent 0 0
      /\ reports (trace w')
         = [mkExtent 0 0; mkExtent 0 0; mkExtent 800 600]
  | _ => False
  end.
Proof. cbv zeta. repeat split; reflexivity. Qed.

(** C6. A rebuild that constructs a chain from a predecessor fails with the
    error "Swap chain Image or depth format has changed" when the colour or
    the depth format of the new chain differs from the predecessor's, and
    returns, with the new chain installed, when both formats are the same. *)
Theorem rebuild_checks_formats (env : RebuildEnv) (w : World)
    (old : LveSwapChain) (image depth : VkFormat) :
  lveSwapChain (renderer w) = Some old ->
  waitEnds env (lveWindow w) = true ->
  built env = Some (image, depth) ->
  (image <> swapChainImageFormat old \/ depth <> swapChainDepthFormat old ->
   exists w',
     recreateSwapChain env w =
     Thrown "Swap chain Image or depth format has changed" w')
  /\ (image = swapChainImageFormat old /\ depth = swapChainDepthFormat old ->
      exists e w',
        recreateSwapChain env w = Returned tt w'
        /\ lveSwapChain (renderer w') = Some (mkChain e image depth)
        /\ In (EvConstructChain e (Some old)) (trace w')).
Proof.
  intros Hold Hw Hb.
  destruct (recreateSwapChain_ends env w Hw)
    as (e & win' & polls & zeros & _ & _ & _ & _ & _ & Hrun).
  cbv zeta in Hrun. rewrite Hb, Hold in Hrun. rewrite Hrun.
  destruct (compareSwapFormats old (mkChain e image depth)) eqn:Hc.
  - apply compareSwapFormats_true in Hc. cbn in Hc. split.
    + intros [H|H]; exfalso; apply H; tauto.
    + intros _. eexists _, _. split; [reflexivity|]. split; [reflexivity|].
      cbn [trace]. rewrite !in_app_iff. right. right. cbn. auto.
  - split.
    + intros _. eexists. reflexivity.
    + intros H. assert (Ht : compareSwapFormats old (mkChain e image depth) = true)
        by (apply compareSwapFormats_true; exact H).
      congruence.
Qed.

Lemma rebuild_checks_formats_witness :
  let old := mkChain (mkExtent 800 600) 44 126 in
  let w := mkWorld (mkRenderer (Some old) [1; 2] 0 0 false)
                   (mkWindow (mkExtent 1024 768) true) [] in
  (exists w',
      recreateSwapChain (mkRebuildEnv [] (Some (50, 126))) w =
      Thrown "Swap chain Image or depth format has changed" w')
  /\ (exists e w',
         recreateSwapChain (mkRebuildEnv [] (Some (44, 126))) w =
         Returned tt w'
         /\ lveSwapChain (renderer w') = Some (mkChain e 44 126)
         /\ In (EvConstructChain e (Some old)) (trace w')).
Proof.
  cbv zeta. split.
  - apply (rebuild_checks_formats (mkRebuildEnv [] (Some (50, 126))) _
             (mkChain (mkExtent 800 600) 44 126) 50 126);
      try reflexivity.
    left. cbn. discriminate.
  - apply (rebuild_checks_formats (mkRebuildEnv [] (Some (44, 126))) _
             (mkChain (mkExtent 800 600) 44 126) 44 126);
      try reflexivity.
    split; reflexivity.
Defined.

Lemma getCurentCommandBuffer_slot (w : World) :
  getCurentCommandBuffer w =
  match currentSlot w with
  | Some cb => Returned cb w
  | None => Undefined
  end.
Proof.
  unfold currentSlot. run_monad.
  destruct (currentFrameIndex (renderer w) <? 0); [reflexivity|].
  destruct (nth_error _ _); reflexivity.
Qed.

Lemma recreateSwapChain_returned (env : RebuildEnv) (w w' : World) (a : unit) :
  recreateSwapChain env w = Returned a w' ->
  exists new, renderer w' = set_lveSwapChain (Some new) (renderer w).
Proof.
  intros Hrun. destruct (waitEnds env (lveWindow w)) eqn:Hw.
  - destruct (recreateSwapChain_ends env w Hw)
      as (e & win' & polls & zeros & _ & _ & _ & _ & _ & Hrun').
    cbv zeta in Hrun'. rewrite Hrun' in Hrun.
    destruct (built env) as [[image depth]|]; [|discriminate].
    exists (mkChain e image depth).
    destruct (lveSwapChain (renderer w)) as [old|];
      [destruct (compareSwapFormats _ _); [|discriminate]|];
      injection Hrun as <- <-; reflexivity.
  - destruct (recreateSwapChain_blocks env w Hw) as (w1 & polls & _ & Hrun' & _).
    congruence.
Qed.

(** [beginFrame], path by path. *)
Lemma beginFrame_paths (env : BeginFrameEnv) (w : World) :
  isFrameStarted (renderer w) = false ->
  lveSwapChain (renderer w) <> None ->
  beginFrame env w =
  if acquireResult env =? VK_ERROR_OUT_OF_DATE_KHR then
    match recreateSwapChain (acquireRebuild env) (acquired env w) with
    | Returned _ w' => Returned nullptr w'
    | Thrown s w' => Thrown s w'
    | AssertFailed s => AssertFailed s
    | Blocked w' => Blocked w'
    | Undefined => Undefined
    end
  else if negb (acquireResult env =? VK_SUCCESS)
          && negb (acquireResult env =? VK_SUBOPTIMAL_KHR)
  then Thrown "failed to acquire swap chain image!" (acquired env w)
  else
    match currentSlot w with
    | None => Undefined
    | Some cb =>
        let w' := logged (EvBeginCommandBuffer cb (beginResult env))
                         (withRenderer (set_isFrameStarted true)
                                       (acquired env w)) in
        if beginResult env =? VK_SUCCESS
        then Returned cb w'
        else Thrown "failed to begin recording command buffer!" w'
    end.
Proof.
  intros Hidle Hchain. unfold beginFrame, acquired.
  destruct w as [[chain bufs img idx started] win t].
  cbn in Hidle, Hchain. subst started.
  destruct chain as [chain|]; [|congruence].
  unfold currentSlot. run_monad. cbn.
  destruct (acquireResult env =? VK_ERROR_OUT_OF_DATE_KHR); [reflexivity|].
  destruct (negb (acquireResult env =? VK_SUCCESS)
            && negb (acquireResult env =? VK_SUBOPTIMAL_KHR)); [reflexivity|].
  cbn. destruct (idx <? 0); [reflexivity|].
  destruct (nth_error bufs (Z.to_nat idx)); [|reflexivity].
  destruct (beginResult env =? VK_SUCCESS); reflexivity.
Qed.

(** [endFrame], path by path. *)
Lemma endFrame_paths (F : Z) (env : EndFrameEnv) (w : World)
    (cb : VkCommandBuffer) :
  isFrameStarted (renderer w) = true ->
  lveSwapChain (renderer w) <> None ->
  currentSlot w = Some cb ->
  endFrame F env w =
  if endResult env =? VK_SUCCESS then
    if rebuildTriggered env w then
      match recreateSwapChain (submitRebuild env)
                              (flagReset (submitted env cb w)) with
      | Returned _ w' => finishFrame F env w'
      | Thrown s w' => Thrown s w'
      | AssertFailed s => AssertFailed s
      | Blocked w' => Blocked w'
      | Undefined => Undefined
      end
    else finishFrame F env (submitted env cb w)
  else Thrown "failed to record command buffer!"
              (logged (EvEndCommandBuffer cb (endResult env)) w).
Proof.
  intros Hstarted Hchain Hslot.
  unfold endFrame, rebuildTriggered, finishFrame, submitted, flagReset.
  unfold bind at 1 2 3. unfold gets at 1. rewrite Hstarted. unfold assert at 1.
  rewrite getCurentCommandBuffer_slot, Hslot.
  destruct w as [[chain bufs img idx started] win t].
  cbn in Hstarted, Hchain. subst started.
  destruct chain as [chain|]; [|congruence].
  run_monad. cbn.
  destruct (endResult env =? VK_SUCCESS); [|reflexivity]. cbn.
  destruct ((submitResult env =? VK_ERROR_OUT_OF_DATE_KHR)
            || (submitResult env =? VK_SUBOPTIMAL_KHR)
            || framebufferResized win).
  - destruct (recreateSwapChain _ _); try reflexivity.
    destruct (submitResult env =? VK_SUCCESS); reflexivity.
  - destruct (submitResult env =? VK_SUCCESS); reflexivity.
Qed.

Lemma extentArrives_flag (evs : list WindowEvent) :
  forall (read : VkExtent2D) (win : LveWindow) (b : bool),
    extentArrives evs read (mkWindow (winExtent win) b) =
    extentArrives evs read win.
Proof.
  induction evs as [|ev evs IH]; intros read win b; cbn [extentArrives].
  - reflexivity.
  - destruct (zeroExtent read); [|reflexivity].
    destruct ev as [e|]; cbn [deliver winExtent]; [reflexivity|].
    apply IH.
Qed.

Lemma waitEnds_flagReset (r : RebuildEnv) (w : World) :
  waitEnds r (lveWindow (flagReset w)) = waitEnds r (lveWindow w).
Proof.
  unfold waitEnds, flagReset. cbn. apply extentArrives_flag.
Qed.

Lemma beginSwapChainRenderPass_paths (w : World) (chain : LveSwapChain)
    (cur cb : VkCommandBuffer) :
  lveSwapChain (renderer w) = Some chain ->
  currentSlot w = Some cur ->
  beginSwapChainRenderPass cb w =
  if isFrameStarted (renderer w) then
    if cb =? cur then
      Returned tt
        (logged (EvCmdSetScissor cb (swapChainExtent chain))
           (logged (EvCmdSetViewport cb (swapChainExtent chain))
              (logged (EvCmdBeginRenderPass cb (currentImageIndex (renderer w))
                         (swapChainExtent chain)) w)))
    else AssertFailed
           "cant begin render pass on command buffer froma different frame"
  else AssertFailed
         "cannot call beginSwapChainRenderPass if frame is not in progress".
Proof.
  intros Hchain Hslot. unfold beginSwapChainRenderPass.
  unfold bind at 1 2. unfold gets at 1.
  destruct (isFrameStarted (renderer w)); [|reflexivity].
  unfold assert at 1. unfold bind at 1.
  rewrite getCurentCommandBuffer_slot, Hslot.
  unfold bind at 1. unfold assert at 1.
  destruct (cb =? cur); [|reflexivity].
  run_monad. rewrite Hchain. reflexivity.
Qed.

Lemma endSwapChainRenderPass_paths (w : World) (cur cb : VkCommandBuffer) :
  currentSlot w = Some cur ->
  endSwapChainRenderPass cb w =
  if isFrameStarted (renderer w) then
    if cb =? cur then Returned tt (logged (EvCmdEndRenderPass cb) w)
    else AssertFailed
           "cant end render pass on command buffer froma different frame"
  else AssertFailed
         "cannot call endSwapChainRenderPass if frame is not in progress".
Proof.
  intros Hslot. unfold endSwapChainRenderPass.
  unfold bind at 1 2. unfold gets at 1.
  destruct (isFrameStarted (renderer w)); [|reflexivity].
  unfold assert at 1. unfold bind at 1.
  rewrite getCurentCommandBuffer_slot, Hslot.
  unfold bind at 1. unfold assert at 1.
  destruct (cb =? cur); reflexivity.
Qed.

Section FrameLoop.

Variable F : Z.
Hypothesis F_pos : 0 < F.

Lemma Ready_slot (w : World) :
  Ready F w -> exists cb, currentSlot w = Some cb /\ cb <> nullptr.
Proof.
  intros (_ & Hlen & Hnn & Hidx). unfold currentSlot.
  destruct (Z.ltb_spec (currentFrameIndex (renderer w)) 0) as [|_]; [lia|].
  destruct (nth_error (commandBuffers (renderer w))
              (Z.to_nat (currentFrameIndex (renderer w)))) as [cb|] eqn:Hnth.
  - exists cb. split; [reflexivity|].
    rewrite Forall_forall in Hnn. apply Hnn. eapply nth_error_In; eauto.
  - apply nth_error_None in Hnth. lia.
Qed.

Lemma map_nth_seq (l : list VkCommandBuffer) :
  map (fun i => nth i l nullptr) (seq 0 (List.length l)) = l.
Proof.
  induction l as [|x l IH]; [reflexivity|].
  cbn [List.length seq map nth]. f_equal.
  rewrite <- seq_shift, map_map. exact IH.
Qed.

Lemma construct_ready (env : ConstructorEnv) (window : LveWindow)
    (image0 : Z) (w : World) (a : unit) :
  allocationContract F env ->
  construct F env (newWorld window image0) = Returned a w ->
  Ready F w /\ isFrameStarted (renderer w) = false
  /\ currentFrameIndex (renderer w) = 0.
Proof.
  intros [Hlen Hnn]. unfold construct. unfold bind at 1.
  destruct (recreateSwapChain (firstBuild env) (newWorld window image0))
    as [u w1| | | |] eqn:Hre; try discriminate.
  apply recreateSwapChain_returned in Hre. destruct Hre as [new Hr].
  unfold createCommandBuffers. run_monad. cbn.
  destruct (allocResult env =? VK_SUCCESS); cbn [negb]; [|discriminate].
  intros [= _ <-]. unfold Ready. cbn. rewrite Hr. cbn.
  replace (Z.to_nat F) with (List.length (allocated env)) by lia.
  rewrite map_nth_seq. repeat split; auto; try lia. discriminate.
Qed.

Lemma beginFrame_in_progress (env : BeginFrameEnv) (w : World) :
  isFrameStarted (renderer w) = true ->
  beginFrame env w =
  AssertFailed "cannot call beginFrame while already in progress".
Proof.
  intros H. unfold beginFrame. unfold bind at 1 2. unfold gets at 1.
  rewrite H. reflexivity.
Qed.

Lemma endFrame_idle (env : EndFrameEnv) (w : World) :
  isFrameStarted (renderer w) = false ->
  endFrame F env w =
  AssertFailed "cannot call end frame while frame is not in progress".
Proof.
  intros H. unfold endFrame. unfold bind at 1 2. unfold gets at 1.
  rewrite H. reflexivity.
Qed.

Lemma Ready_renderer (w w' : World) (c : option LveSwapChain) (image : Z) :
  Ready F w ->
  c <> None ->
  renderer w' = set_lveSwapChain c (set_currentImageIndex image (renderer w)) ->
  Ready F w'.
Proof.
  intros (Hc & Hlen & Hnn & Hidx) Hsome Hr. unfold Ready. rewrite Hr. cbn.
  auto.
Qed.

(** A [beginFrame] that returns leaves the renderer ready, has not moved the
    frame index, and has started a frame exactly when it returned a buffer. *)
Lemma beginFrame_returned (env : BeginFrameEnv) (w w' : World)
    (cb : VkCommandBuffer) :
  Ready F w ->
  beginFrame env w = Returned cb w' ->
  Ready F w'
  /\ isFrameStarted (renderer w) = false
  /\ isFrameStarted (renderer w') = negb (cb =? nullptr)
  /\ currentFrameIndex (renderer w') = currentFrameIndex (renderer w).
Proof.
  intros HR Hrun.
  destruct (isFrameStarted (renderer w)) eqn:Hst.
  { rewrite beginFrame_in_progress in Hrun by exact Hst. discriminate. }
  pose proof HR as (Hc & _).
  destruct (Ready_slot w HR) as (cur & Hslot & Hnn).
  rewrite (beginFrame_paths env w Hst Hc), Hslot in Hrun.
  destruct (acquireResult env =? VK_ERROR_OUT_OF_DATE_KHR).
  - destruct (recreateSwapChain _ _) as [u w1| | | |] eqn:Hre; try discriminate.
    injection Hrun as <- <-.
    apply recreateSwapChain_returned in Hre. destruct Hre as [new Hr].
    cbn in Hr. split; [|split; [reflexivity|split]].
    + apply (Ready_renderer w w1 (Some new) (acquiredImage env) HR);
        [discriminate|exact Hr].
    + rewrite Hr. cbn. exact Hst.
    + rewrite Hr. reflexivity.
  - destruct (negb _ && negb _); [discriminate|]. cbv zeta in Hrun.
    destruct (beginResult env =? VK_SUCCESS); [|discriminate].
    injection Hrun as <- <-. cbn.
    destruct (Z.eqb_spec cur nullptr) as [|_]; [contradiction|].
    repeat split; auto; apply HR.
Qed.

(** An [endFrame] that returns leaves the renderer ready and idle, with the
    frame index advanced by one modulo [F]. *)
Lemma endFrame_returned (env : EndFrameEnv) (w w' : World) (a : unit) :
  Ready F w ->
  endFrame F env w = Returned a w' ->
  Ready F w'
  /\ isFrameStarted (renderer w) = true
  /\ submitResult env = VK_SUCCESS
  /\ isFrameStarted (renderer w') = false
  /\ currentFrameIndex (renderer w')
     = (currentFrameIndex (renderer w) + 1) mod F.
Proof.
  intros HR Hrun.
  destruct (isFrameStarted (renderer w)) eqn:Hst.
  2:{ rewrite endFrame_idle in Hrun by exact Hst. discriminate. }
  pose proof HR as (Hc & Hlen & Hnn & Hidx).
  destruct (Ready_slot w HR) as (cur & Hslot & _).
  rewrite (endFrame_paths F env w cur Hst Hc Hslot) in Hrun.
  destruct (endResult env =? VK_SUCCESS); [|discriminate].
  assert (Hfin : forall w1,
             renderer w1 = set_lveSwapChain (lveSwapChain (renderer w1))
                                            (renderer w) ->
             lveSwapChain (renderer w1) <> None ->
             finishFrame F env w1 = Returned a w' ->
             Ready F w' /\ true = true /\ submitResult env = VK_SUCCESS
             /\ isFrameStarted (renderer w') = false
             /\ currentFrameIndex (renderer w')
                = (currentFrameIndex (renderer w) + 1) mod F).
  { intros w1 Hr Hsome. unfold finishFrame.
    destruct (Z.eqb_spec (submitResult env) VK_SUCCESS) as [Hs|]; [|discriminate].
    intros [= _ <-]. unfold Ready. cbn. rewrite Hr. cbn.
    rewrite Z.rem_mod_nonneg by lia.
    pose proof (Z.mod_pos_bound (currentFrameIndex (renderer w) + 1) F F_pos).
    repeat split; auto; try lia. }
  destruct (rebuildTriggered env w).
  - destruct (recreateSwapChain _ _) as [u w1| | | |] eqn:Hre; try discriminate.
    apply recreateSwapChain_returned in Hre. destruct Hre as [new Hr].
    cbn in Hr. apply (Hfin w1); [rewrite Hr; reflexivity| |exact Hrun].
    rewrite Hr. discriminate.
  - apply (Hfin (submitted env cur w)); [cbn; destruct (renderer w); reflexivity
                                        |exact Hc|exact Hrun].
Qed.

Lemma call_returned (c : Call) (w w' : World) (o : Observation) :
  Ready F w ->
  call F c w = Returned o w' ->
  Ready F w'
  /\ isFrameStarted (renderer w')
     = frameInProgress (isFrameStarted (renderer w)) [o]
  /\ currentFrameIndex (renderer w')
     = (currentFrameIndex (renderer w) + completedFrames [o]) mod F.
Proof.
  intros HR. pose proof HR as (Hc & Hlen & Hnn & Hidx).
  assert (Hsame : currentFrameIndex (renderer w)
                  = (currentFrameIndex (renderer w) + 0) mod F)
    by (rewrite Z.add_0_r, Z.mod_small; lia).
  destruct (Ready_slot w HR) as (cur & Hslot & _).
  destruct c as [ev|env|cb|cb|env]; unfold call; unfold bind at 1.
  - run_monad. intros [= <- <-]. cbn. auto.
  - destruct (beginFrame env w) as [cb w1| | | |] eqn:Hrun; try discriminate.
    intros [= <- <-].
    destruct (beginFrame_returned env w w1 cb HR Hrun) as (HR' & _ & Hst & Hi).
    cbn. rewrite Hi. auto.
  - destruct (lveSwapChain (renderer w)) as [chain|] eqn:Hchain; [|congruence].
    rewrite (beginSwapChainRenderPass_paths w chain cur cb Hchain Hslot).
    destruct (isFrameStarted (renderer w)) eqn:Hst; [|discriminate].
    destruct (cb =? cur); [|discriminate].
    intros [= <- <-]. unfold Ready. cbn. rewrite Hchain.
    repeat split; auto; try lia.
  - rewrite (endSwapChainRenderPass_paths w cur cb Hslot).
    destruct (isFrameStarted (renderer w)) eqn:Hst; [|discriminate].
    destruct (cb =? cur); [|discriminate].
    intros [= <- <-]. unfold Ready. cbn. repeat split; auto; lia.
  - destruct (endFrame F env w) as [u w1| | | |] eqn:Hrun; try discriminate.
    intros [= <- <-].
    destruct (endFrame_returned env w w1 u HR Hrun)
      as (HR' & _ & _ & Hst & Hi).
    cbn. rewrite Hi, Hst. auto.
Qed.

(** The invariant of the frame loop: after any sequence of calls that all
    returned, the renderer is ready, [isFrameStarted] tells whether a frame
    is in progress, and the frame index has advanced by the number of
    completed frames, modulo [F]. *)
Lemma run_returned (cs : list Call) :
  forall (w w' : World) (obs : list Observation),
    Ready F w ->
    run F cs w = Returned obs w' ->
    Ready F w'
    /\ isFrameStarted (renderer w')
       = frameInProgress (isFrameStarted (renderer w)) obs
    /\ currentFrameIndex (renderer w')
       = (currentFrameIndex (renderer w) + completedFrames obs) mod F.
Proof.
  induction cs as [|c cs IH]; intros w w' obs HR; cbn [run].
  - intros [= <- <-]. cbn. rewrite Z.add_0_r, Z.mod_small by apply HR. auto.
  - unfold bind at 1.
    destruct (call F c w) as [o w1| | | |] eqn:Hcall; try discriminate.
    unfold bind at 1.
    destruct (run F cs w1) as [os w2| | | |] eqn:Hrun; try discriminate.
    intros [= <- <-].
    destruct (call_returned c w w1 o HR Hcall) as (HR1 & Hst1 & Hi1).
    destruct (IH w1 w2 os HR1 Hrun) as (HR2 & Hst2 & Hi2).
    split; [exact HR2|]. split.
    + rewrite Hst2, Hst1. destruct o; reflexivity.
    + rewrite Hi2, Hi1, Zplus_mod_idemp_l.
      f_equal. destruct o; cbn [completedFrames]; lia.
Qed.

Lemma polls_are_rebuild_events (l : list Event) :
  forallb isPoll l = true -> forallb isRebuildEvent l = true.
Proof.
  induction l as [|e l IH]; [reflexivity|].
  cbn [forallb]. rewrite !andb_true_iff. intros [He Hl].
  split; [destruct e; try discriminate; reflexivity|auto].
Qed.

Lemma rebuild_events_begin_nothing (l : list Event) :
  forallb isRebuildEvent l = true -> existsb isBeginCommandBuffer l = false.
Proof.
  induction l as [|e l IH]; [reflexivity|].
  cbn [forallb existsb]. rewrite andb_true_iff. intros [He Hl].
  rewrite (IH Hl). destruct e; try discriminate; reflexivity.
Qed.

(** Every rebuild ends in some world (it trips no assertion), starts by
    asking the surface for its extent, and logs rebuild events only. *)
Lemma recreateSwapChain_trace (env : RebuildEnv) (w : World) :
  exists w' rest,
    worldOf (recreateSwapChain env w) = Some w'
    /\ trace w' = trace w ++ EvGetExtent (winExtent (lveWindow w)) :: rest
    /\ forallb isRebuildEvent rest = true.
Proof.
  destruct (waitEnds env (lveWindow w)) eqn:Hw.
  - destruct (recreateSwapChain_ends env w Hw)
      as (e & win' & polls & zeros & Hhd & Hp & _ & _ & _ & Hrun).
    cbv zeta in Hrun. rewrite Hrun.
    destruct polls as [|p polls]; [discriminate|]. injection Hhd as ->.
    cbn [forallb isPoll andb] in Hp.
    assert (Hall : forallb isRebuildEvent
                     (polls ++ [EvDeviceWaitIdle;
                                EvConstructChain e (lveSwapChain (renderer w))])
                   = true).
    { rewrite forallb_app, polls_are_rebuild_events by exact Hp. reflexivity. }
    destruct (built env) as [[image depth]|];
      [destruct (lveSwapChain (renderer w)) as [old|];
       [destruct (compareSwapFormats _ _)|]|];
      eexists _, _; (split; [reflexivity|]); cbn [trace app]; auto.
  - destruct (recreateSwapChain_blocks env w Hw)
      as (w' & polls & Hhd & Hrun & _ & Ht & Hp).
    rewrite Hrun. destruct polls as [|p polls]; [discriminate|].
    injection Hhd as ->. cbn [forallb isPoll andb] in Hp.
    exists w', polls. rewrite Ht.
    auto using polls_are_rebuild_events.
Qed.

(** With a surface that has no zero side the rebuild does not wait, and
    leaves the window as it is. *)
Lemma recreateSwapChain_no_wait (env : RebuildEnv) (w w' : World) :
  zeroExtent (winExtent (lveWindow w)) = false ->
  worldOf (recreateSwapChain env w) = Some w' ->
  lveWindow w' = lveWindow w.
Proof.
  intros Hz. unfold recreateSwapChain.
  unfold bind at 1. unfold getExtent at 1. run_monad.
  assert (Hwait : forall w1,
             waitForExtent (wakeups env) (winExtent (lveWindow w)) w1
             = Returned (winExtent (lveWindow w)) w1).
  { intros w1. destruct (wakeups env); cbn [waitForExtent]; rewrite Hz;
      reflexivity. }
  rewrite Hwait. run_monad.
  destruct (lveSwapChain (renderer w)) as [old|];
    destruct (built env) as [[image depth]|]; cbn;
    try destruct (compareSwapFormats old _); cbn;
    intros [= <-]; reflexivity.
Qed.

(** ** [beginFrame] *)

(** C2. A call of [beginFrame] on an idle, ready renderer goes by the status
    of [acquireNextImage].  Out of date: the chain is rebuilt (when the wait
    for the extent ends and the new chain has the formats of the old one)
    and [beginFrame] returns the null command buffer.  Any status other than
    success, suboptimal and out of date: [beginFrame] throws.  Success or
    suboptimal: [vkBeginCommandBuffer] is called on the buffer of the
    current frame slot, which is not null, and that buffer is returned; if
    [vkBeginCommandBuffer] itself fails, [beginFrame] throws. *)
Theorem beginFrame_by_status (env : BeginFrameEnv) (w : World) :
  Ready F w ->
  isFrameStarted (renderer w) = false ->
  (acquireResult env = VK_ERROR_OUT_OF_DATE_KHR ->
   forall old image depth,
     lveSwapChain (renderer w) = Some old ->
     waitEnds (acquireRebuild env) (lveWindow w) = true ->
     built (acquireRebuild env) = Some (image, depth) ->
     image = swapChainImageFormat old ->
     depth = swapChainDepthFormat old ->
     exists e w',
       beginFrame env w = Returned nullptr w'
       /\ lveSwapChain (renderer w') = Some (mkChain e image depth)
       /\ In (EvConstructChain e (Some old)) (trace w'))
  /\ (acquireResult env <> VK_SUCCESS ->
      acquireResult env <> VK_SUBOPTIMAL_KHR ->
      acquireResult env <> VK_ERROR_OUT_OF_DATE_KHR ->
      exists w',
        beginFrame env w = Thrown "failed to acquire swap chain image!" w')
  /\ (acquireResult env = VK_SUCCESS
      \/ acquireResult env = VK_SUBOPTIMAL_KHR ->
      exists cb,
        currentSlot w = Some cb
        /\ cb <> nullptr
        /\ (beginResult env = VK_SUCCESS ->
            exists w',
              beginFrame env w = Returned cb w'
              /\ isFrameStarted (renderer w') = true
              /\ trace w' = trace w ++
                              [EvAcquireNextImage (acquireResult env);
                               EvBeginCommandBuffer cb VK_SUCCESS])
        /\ (beginResult env <> VK_SUCCESS ->
            exists w',
              beginFrame env w =
              Thrown "failed to begin recording command buffer!" w'
              /\ In (EvBeginCommandBuffer cb (beginResult env)) (trace w'))).
Proof.
  intros HR Hidle. pose proof HR as (Hc & _).
  destruct (Ready_slot w HR) as (cur & Hslot & Hnn).
  rewrite (beginFrame_paths env w Hidle Hc), Hslot. cbv zeta.
  split; [|split].
  - intros Hood old image depth Hold Hw Hb Hi Hd.
    destruct (Z.eqb_spec (acquireResult env) VK_ERROR_OUT_OF_DATE_KHR)
      as [_|Hne]; [|contradiction].
    assert (Hw' : waitEnds (acquireRebuild env) (lveWindow (acquired env w))
                  = true) by exact Hw.
    destruct (recreateSwapChain_ends _ _ Hw')
      as (e & win' & polls & zeros & _ & _ & _ & _ & _ & Hrun).
    cbv zeta in Hrun. rewrite Hb in Hrun.
    cbn [acquired renderer withRenderer logged lveSwapChain
         set_currentImageIndex] in Hrun.
    rewrite Hold in Hrun.
    assert (Hcmp : compareSwapFormats old (mkChain e image depth) = true)
      by (apply compareSwapFormats_true; cbn; auto).
    rewrite Hcmp in Hrun. rewrite Hrun.
    eexists e, _. split; [reflexivity|]. split; [reflexivity|].
    cbn [trace]. rewrite !in_app_iff. right. right. cbn. auto.
  - intros H1 H2 H3.
    destruct (Z.eqb_spec (acquireResult env) VK_ERROR_OUT_OF_DATE_KHR);
      [contradiction|].
    destruct (Z.eqb_spec (acquireResult env) VK_SUCCESS); [contradiction|].
    destruct (Z.eqb_spec (acquireResult env) VK_SUBOPTIMAL_KHR);
      [contradiction|].
    cbn [negb andb]. eexists. reflexivity.
  - intros Hok. exists cur. split; [reflexivity|]. split; [exact Hnn|].
    assert (Hpath :
              (acquireResult env =? VK_ERROR_OUT_OF_DATE_KHR) = false
              /\ negb (acquireResult env =? VK_SUCCESS)
                 && negb (acquireResult env =? VK_SUBOPTIMAL_KHR) = false).
    { destruct Hok as [-> | ->]; split; reflexivity. }
    destruct Hpath as [-> ->]. split.
    + intros Hb. rewrite Hb. cbn [Z.eqb VK_SUCCESS].
      eexists. split; [reflexivity|]. split; [reflexivity|].
      cbn. rewrite <- app_assoc. reflexivity.
    + intros Hb. destruct (Z.eqb_spec (beginResult env) VK_SUCCESS);
        [contradiction|].
      eexists. split; [reflexivity|]. cbn. rewrite in_app_iff. right.
      cbn. auto.
Qed.

(** C10. When [beginFrame] returns after [acquireNextImage] reported out of
    date, it returns the null command buffer and the frame state is as it
    was: no frame is in progress, the frame index and the command buffers
    are unchanged, and [vkBeginCommandBuffer] was not called.  Of the
    renderer only the chain is replaced, next to [currentImageIndex], the
    out-parameter of [acquireNextImage]: when the backend leaves that
    alone, the chain is the only member that differs. *)
Theorem beginFrame_no_frame_keeps_state (env : BeginFrameEnv) (w w' : World)
    (cb : VkCommandBuffer) :
  acquireResult env = VK_ERROR_OUT_OF_DATE_KHR ->
  beginFrame env w = Returned cb w' ->
  cb = nullptr
  /\ isFrameStarted (renderer w) = false
  /\ isFrameStarted (renderer w') = false
  /\ currentFrameIndex (renderer w') = currentFrameIndex (renderer w)
  /\ commandBuffers (renderer w') = commandBuffers (renderer w)
  /\ (exists added,
        trace w' = trace w ++ added
        /\ existsb isBeginCommandBuffer added = false
        /\ existsb isConstruct added = true)
  /\ (exists new,
        renderer w'
        = set_lveSwapChain (Some new)
            (set_currentImageIndex (acquiredImage env) (renderer w))
        /\ (acquiredImage env = currentImageIndex (renderer w) ->
            renderer w' = set_lveSwapChain (Some new) (renderer w))).
Proof.
  intros Hood Hrun.
  destruct (isFrameStarted (renderer w)) eqn:Hidle.
  { rewrite beginFrame_in_progress in Hrun by exact Hidle. discriminate. }
  destruct (lveSwapChain (renderer w)) as [old|] eqn:Hold.
  2:{ revert Hrun. unfold beginFrame. run_monad. rewrite Hidle.
      cbn [negb]. rewrite Hold.
      discriminate. }
  assert (Hc : lveSwapChain (renderer w) <> None) by congruence.
  rewrite (beginFrame_paths env w Hidle Hc) in Hrun.
  destruct (Z.eqb_spec (acquireResult env) VK_ERROR_OUT_OF_DATE_KHR)
    as [_|Hne]; [|contradiction].
  destruct (recreateSwapChain_trace (acquireRebuild env) (acquired env w))
    as (w1 & rest & Hw1 & Ht & Hev).
  destruct (waitEnds (acquireRebuild env) (lveWindow (acquired env w))) eqn:Hw.
  2:{ destruct (recreateSwapChain_blocks _ _ Hw) as (? & ? & _ & Hb & _).
      rewrite Hb in Hrun. discriminate. }
  destruct (recreateSwapChain_ends _ _ Hw)
    as (e & win' & polls & zeros & _ & Hp & _ & _ & _ & Hre).
  cbv zeta in Hre.
  destruct (recreateSwapChain (acquireRebuild env) (acquired env w))
    as [u w2| | | |] eqn:Hrebuild; try discriminate.
  injection Hrun as <- <-. cbn [worldOf] in Hw1. injection Hw1 as <-.
  destruct (recreateSwapChain_returned _ _ _ _ Hrebuild) as [new Hr].
  cbn [acquired renderer withRenderer logged] in Hr.
  split; [reflexivity|]. split; [reflexivity|].
  rewrite Hr. cbn. repeat split; auto.
  - exists (EvAcquireNextImage (acquireResult env)
              :: EvGetExtent (winExtent (lveWindow w)) :: rest).
    rewrite Ht. cbn. rewrite <- app_assoc. split; [reflexivity|].
    split; [apply rebuild_events_begin_nothing; exact Hev|].
    destruct (built (acquireRebuild env)) as [[image depth]|];
      [|discriminate].
    assert (Htr : trace w2 = trace (acquired env w) ++ polls ++
                    [EvDeviceWaitIdle;
                     EvConstructChain e
                       (lveSwapChain (renderer (acquired env w)))]).
    { destruct (lveSwapChain (renderer (acquired env w)));
        [destruct (compareSwapFormats _ _); [|discriminate]|];
        injection Hre as _ ->; reflexivity. }
    rewrite Ht in Htr. apply app_inv_head in Htr.
    assert (Hex : existsb isConstruct
                    (EvGetExtent (winExtent (lveWindow (acquired env w)))
                       :: rest) = true).
    { rewrite Htr, existsb_app. cbn. apply orb_true_r. }
    exact Hex.
  - exists new. split; [reflexivity|].
    intros ->. destruct (renderer w); reflexivity.
Qed.

(** ** The render pass guards *)

(** C3. After the constructor and any sequence of calls that all returned,
    [beginSwapChainRenderPass] and [endSwapChainRenderPass] return exactly
    when a frame is in progress (of the [beginFrame] and [endFrame] calls
    the client has seen return, the last is a [beginFrame] that gave a
    command buffer) and the command buffer passed is the one of the current
    frame slot; in every other case the guarding assertion fails. *)
Theorem render_pass_only_in_frame (cenv : ConstructorEnv)
    (window : LveWindow) (image0 : Z) (w0 w : World) (cs : list Call)
    (obs : list Observation) (cb : VkCommandBuffer) :
  allocationContract F cenv ->
  construct F cenv (newWorld window image0) = Returned tt w0 ->
  run F cs w0 = Returned obs w ->
  exists cur,
    currentSlot w = Some cur
    /\ if frameInProgress false obs && (cb =? cur)
       then (exists w', beginSwapChainRenderPass cb w = Returned tt w')
            /\ (exists w', endSwapChainRenderPass cb w = Returned tt w')
       else (exists msg, beginSwapChainRenderPass cb w = AssertFailed msg)
            /\ (exists msg, endSwapChainRenderPass cb w = AssertFailed msg).
Proof.
  intros Halloc Hctor Hrun.
  destruct (construct_ready cenv window image0 w0 tt Halloc Hctor)
    as (HR0 & Hidle0 & _).
  destruct (run_returned cs w0 w obs HR0 Hrun) as (HR & Hst & _).
  rewrite Hidle0 in Hst.
  destruct (Ready_slot w HR) as (cur & Hslot & _).
  exists cur. split; [exact Hslot|].
  destruct HR as (Hc & _).
  destruct (lveSwapChain (renderer w)) as [chain|] eqn:Hchain; [|congruence].
  rewrite (beginSwapChainRenderPass_paths w chain cur cb Hchain Hslot).
  rewrite (endSwapChainRenderPass_paths w cur cb Hslot).
  rewrite Hst.
  destruct (frameInProgress false obs); cbn [andb];
    [destruct (cb =? cur)|]; split; eexists; reflexivity.
Qed.

(** ** The frame index *)

(** C4. From the constructor on, the frame index is the number of completed
    frames modulo [F]; between any two points of a run it has advanced by
    the number of frames completed in between, modulo [F]: by one for each
    completed frame, to a different slot as long as fewer than [F] frames
    were completed, and back to the same slot (slot 0 when counting from the
    constructor) after exactly [F] of them.  The calls of the run are
    arbitrary, with any rebuilds they cause. *)
Theorem frame_index_cycles (cenv : ConstructorEnv) (window : LveWindow)
    (image0 : Z) (w0 w1 w2 : World) (cs1 cs2 : list Call)
    (obs1 obs2 : list Observation) :
  allocationContract F cenv ->
  construct F cenv (newWorld window image0) = Returned tt w0 ->
  run F cs1 w0 = Returned obs1 w1 ->
  run F cs2 w1 = Returned obs2 w2 ->
  let i1 := currentFrameIndex (renderer w1) in
  let i2 := currentFrameIndex (renderer w2) in
  let k := completedFrames obs2 in
  currentFrameIndex (renderer w0) = 0
  /\ i1 = completedFrames obs1 mod F
  /\ i2 = (i1 + k) mod F
  /\ (k = 1 -> i2 = (i1 + 1) mod F)
  /\ (0 < k < F -> i2 <> i1)
  /\ (k = F -> i2 = i1)
  /\ 0 <= i2 < F.
Proof.
  intros Halloc Hctor Hrun1 Hrun2.
  destruct (construct_ready cenv window image0 w0 tt Halloc Hctor)
    as (HR0 & _ & Hi0).
  destruct (run_returned cs1 w0 w1 obs1 HR0 Hrun1) as (HR1 & _ & Hi1).
  destruct (run_returned cs2 w1 w2 obs2 HR1 Hrun2) as (HR2 & _ & Hi2).
  rewrite Hi0, Z.add_0_l in Hi1.
  cbv zeta. split; [exact Hi0|]. split; [exact Hi1|]. split; [exact Hi2|].
  assert (Hr1 : 0 <= currentFrameIndex (renderer w1) < F) by apply HR1.
  assert (Hr2 : 0 <= currentFrameIndex (renderer w2) < F) by apply HR2.
  split; [intros Hk; rewrite Hi2, Hk; reflexivity|].
  split; [|split; [|exact Hr2]].
  - intros Hk Heq. rewrite Hi2 in Heq.
    destruct (Z_lt_ge_dec (currentFrameIndex (renderer w1)
                           + completedFrames obs2) F) as [Hlt|Hge].
    + rewrite Z.mod_small in Heq by lia. lia.
    + replace (currentFrameIndex (renderer w1) + completedFrames obs2)
        with (currentFrameIndex (renderer w1) + completedFrames obs2 - F
              + 1 * F) in Heq by lia.
      rewrite Z_mod_plus_full, Z.mod_small in Heq by lia. lia.
  - intros Hk. rewrite Hi2, Hk.
    replace (currentFrameIndex (renderer w1) + F)
      with (currentFrameIndex (renderer w1) + 1 * F) by lia.
    rewrite Z_mod_plus_full. apply Z.mod_small. exact Hr1.
Qed.

(** ** [endFrame] *)

(** C7. In [endFrame], once the command buffer is ended and submitted, each
    of the three conditions (submit status out of date, submit status
    suboptimal, resize flag set) on its own makes the renderer reset the
    resize flag and then run the rebuild procedure, which starts in a world
    where the flag is clear.  The log of [endFrame] is the log of that
    rebuild; with a surface that has no zero side the flag is still clear
    when [endFrame] ends. *)
Theorem endFrame_rebuild_triggers (env : EndFrameEnv) (w : World)
    (cb : VkCommandBuffer) :
  isFrameStarted (renderer w) = true ->
  lveSwapChain (renderer w) <> None ->
  currentSlot w = Some cb ->
  endResult env = VK_SUCCESS ->
  submitResult env = VK_ERROR_OUT_OF_DATE_KHR
  \/ submitResult env = VK_SUBOPTIMAL_KHR
  \/ framebufferResized (lveWindow w) = true ->
  let start := flagReset (submitted env cb w) in
  framebufferResized (lveWindow start) = false
  /\ exists rebuilt final rest,
      worldOf (recreateSwapChain (submitRebuild env) start) = Some rebuilt
      /\ worldOf (endFrame F env w) = Some final
      /\ trace final = trace rebuilt
      /\ lveWindow final = lveWindow rebuilt
      /\ trace final
         = trace w ++
           [EvEndCommandBuffer cb VK_SUCCESS;
            EvSubmit cb (currentImageIndex (renderer w)) (submitResult env);
            EvResetWindowResizedFlag;
            EvGetExtent (winExtent (lveWindow w))] ++ rest
      /\ forallb isRebuildEvent rest = true
      /\ (zeroExtent (winExtent (lveWindow w)) = false ->
          framebufferResized (lveWindow final) = false).
Proof.
  intros Hst Hc Hslot Hend Htrig. cbv zeta. split; [reflexivity|].
  rewrite (endFrame_paths F env w cb Hst Hc Hslot), Hend.
  cbn [Z.eqb VK_SUCCESS].
  assert (Ht : rebuildTriggered env w = true).
  { unfold rebuildTriggered.
    destruct Htrig as [-> | [-> | ->]];
      rewrite ?Z.eqb_refl, ?orb_true_r; reflexivity. }
  rewrite Ht.
  destruct (recreateSwapChain_trace (submitRebuild env)
              (flagReset (submitted env cb w)))
    as (rebuilt & rest & Hw & Htr & Hev).
  assert (Hfin : exists final,
             worldOf
               match recreateSwapChain (submitRebuild env)
                       (flagReset (submitted env cb w)) with
               | Returned _ w' => finishFrame F env w'
               | Thrown s w' => Thrown s w'
               | AssertFailed s => AssertFailed s
               | Blocked w' => Blocked w'
               | Undefined => Undefined
               end = Some final
             /\ trace final = trace rebuilt
             /\ lveWindow final = lveWindow rebuilt).
  { destruct (recreateSwapChain _ _) as [u w1|m w1| |w1|];
      try discriminate; cbn [worldOf] in Hw; injection Hw as ->;
      [|eexists; split; [reflexivity|auto]..].
    unfold finishFrame. destruct (submitResult env =? VK_SUCCESS);
      eexists; (split; [reflexivity|auto]). }
  destruct Hfin as (final & Hfinal & Htf & Hwf).
  exists rebuilt, final, rest.
  split; [exact Hw|]. split; [exact Hfinal|]. split; [exact Htf|].
  split; [exact Hwf|]. split; [|split; [exact Hev|]].
  - rewrite Htf, Htr. unfold flagReset, submitted. cbn.
    rewrite Hend, <- !app_assoc. reflexivity.
  - intros Hz. rewrite Hwf.
    rewrite (recreateSwapChain_no_wait (submitRebuild env)
               (flagReset (submitted env cb w)) rebuilt); [reflexivity|exact Hz|exact Hw].
Qed.

(** C1, what the code does.  When [submitCommandBuffers] returns out of date
    or suboptimal, [endFrame] rebuilds the chain and then throws "failed to
    submit command buffers!": the check [result != VK_SUCCESS] that follows
    the rebuild is not an [else] branch of it.  The frame stays in progress
    and the frame index is not advanced. *)
Theorem endFrame_throws_after_rebuild (env : EndFrameEnv) (w : World)
    (cb : VkCommandBuffer) (old : LveSwapChain) (image depth : VkFormat) :
  isFrameStarted (renderer w) = true ->
  lveSwapChain (renderer w) = Some old ->
  currentSlot w = Some cb ->
  endResult env = VK_SUCCESS ->
  submitResult env = VK_ERROR_OUT_OF_DATE_KHR
  \/ submitResult env = VK_SUBOPTIMAL_KHR ->
  waitEnds (submitRebuild env) (lveWindow w) = true ->
  built (submitRebuild env) = Some (image, depth) ->
  image = swapChainImageFormat old ->
  depth = swapChainDepthFormat old ->
  exists e w',
    endFrame F env w = Thrown "failed to submit command buffers!" w'
    /\ lveSwapChain (renderer w') = Some (mkChain e image depth)
    /\ In (EvConstructChain e (Some old)) (trace w')
    /\ isFrameStarted (renderer w') = true
    /\ currentFrameIndex (renderer w') = currentFrameIndex (renderer w).
Proof.
  intros Hst Hold Hslot Hend Hsub Hw Hb Hi Hd.
  assert (Hc : lveSwapChain (renderer w) <> None) by congruence.
  rewrite (endFrame_paths F env w cb Hst Hc Hslot), Hend.
  cbn [Z.eqb VK_SUCCESS].
  assert (Ht : rebuildTriggered env w = true).
  { unfold rebuildTriggered.
    destruct Hsub as [-> | ->]; reflexivity. }
  rewrite Ht.
  assert (Hw' : waitEnds (submitRebuild env)
                  (lveWindow (flagReset (submitted env cb w))) = true)
    by (rewrite waitEnds_flagReset; exact Hw).
  destruct (recreateSwapChain_ends _ _ Hw')
    as (e & win' & polls & zeros & _ & _ & _ & _ & _ & Hrun).
  cbv zeta in Hrun. rewrite Hb in Hrun.
  cbn [flagReset submitted renderer withWindow logged] in Hrun.
  rewrite Hold in Hrun.
  assert (Hcmp : compareSwapFormats old (mkChain e image depth) = true)
    by (apply compareSwapFormats_true; cbn; auto).
  rewrite Hcmp in Hrun.
  cbn [flagReset submitted renderer withWindow logged]. rewrite Hrun.
  unfold finishFrame.
  assert (Hne : (submitResult env =? VK_SUCCESS) = false)
    by (destruct Hsub as [-> | ->]; reflexivity).
  rewrite Hne. eexists e, _. split; [reflexivity|].
  cbn. rewrite Hst. repeat split; auto.
  rewrite !in_app_iff. right. right. cbn. auto.
Qed.

End FrameLoop.

Example demoWorld_constructed :
  construct 2 demoConstructor (newWorld demoWindow 0) = Returned tt demoWorld.
Proof. reflexivity. Qed.

Ltac solve_ready :=
  unfold Ready; cbn;
  repeat split; try lia; try discriminate;
  repeat constructor; discriminate.

Lemma beginFrame_by_status_witness :
  (exists e w',
      beginFrame (demoBegin VK_ERROR_OUT_OF_DATE_KHR) demoWorld
      = Returned nullptr w'
      /\ lveSwapChain (renderer w') = Some (mkChain e 44 126)
      /\ In (EvConstructChain e (Some demoChain)) (trace w'))
  /\ (exists w',
         beginFrame (demoBegin (-4)) demoWorld
         = Thrown "failed to acquire swap chain image!" w')
  /\ (exists cb,
         currentSlot demoWorld = Some cb
         /\ cb <> nullptr
         /\ exists w', beginFrame (demoBegin VK_SUBOPTIMAL_KHR) demoWorld
                       = Returned cb w').
Proof.
  assert (HR : Ready 2 demoWorld) by solve_ready.
  split; [|split].
  - destruct (beginFrame_by_status 2 (demoBegin VK_ERROR_OUT_OF_DATE_KHR)
                demoWorld HR eq_refl) as (Hood & _ & _).
    apply (Hood eq_refl demoChain 44 126); reflexivity.
  - destruct (beginFrame_by_status 2 (demoBegin (-4)) demoWorld HR eq_refl)
      as (_ & Hlost & _).
    apply Hlost; discriminate.
  - destruct (beginFrame_by_status 2 (demoBegin VK_SUBOPTIMAL_KHR) demoWorld
                HR eq_refl) as (_ & _ & Hok).
    destruct (Hok (or_intror eq_refl)) as (cb & Hslot & Hnn & Hret & _).
    exists cb. split; [exact Hslot|]. split; [exact Hnn|].
    destruct (Hret eq_refl) as (w' & Hrun & _). exists w'. exact Hrun.
Defined.

Lemma beginFrame_no_frame_keeps_state_witness :
  exists w',
    beginFrame (demoBegin VK_ERROR_OUT_OF_DATE_KHR) demoWorld
    = Returned nullptr w'
    /\ isFrameStarted (renderer w') = false
    /\ currentFrameIndex (renderer w') = 0
    /\ commandBuffers (renderer w') = [101; 102].
Proof.
  eexists. split; [reflexivity|].
  destruct (beginFrame_no_frame_keeps_state
              (demoBegin VK_ERROR_OUT_OF_DATE_KHR) demoWorld _ nullptr
              eq_refl eq_refl)
    as (_ & _ & Hst & Hidx & Hbufs & _).
  split; [exact Hst|]. split; [exact Hidx|exact Hbufs].
Defined.

Lemma render_pass_only_in_frame_witness :
  let begun := [CallBeginFrame (demoBegin VK_SUCCESS)] in
  (exists w', beginSwapChainRenderPass 101 (worldAfter begun demoWorld)
              = Returned tt w')
  /\ (exists msg, beginSwapChainRenderPass 102 (worldAfter begun demoWorld)
                  = AssertFailed msg)
  /\ (exists msg,
         endSwapChainRenderPass 101 (worldAfter demoFrameCalls demoWorld)
         = AssertFailed msg).
Proof.
  assert (Halloc : allocationContract 2 demoConstructor).
  { split; [reflexivity|]. repeat constructor; discriminate. }
  cbv zeta. split; [|split].
  - destruct (render_pass_only_in_frame 2 eq_refl demoConstructor demoWindow 0
                demoWorld
                (worldAfter [CallBeginFrame (demoBegin VK_SUCCESS)] demoWorld)
                [CallBeginFrame (demoBegin VK_SUCCESS)]
                (observed [CallBeginFrame (demoBegin VK_SUCCESS)] demoWorld)
                101 Halloc eq_refl eq_refl) as (cur & Hslot & Hguard).
    injection Hslot as <-. exact (proj1 Hguard).
  - destruct (render_pass_only_in_frame 2 eq_refl demoConstructor demoWindow 0
                demoWorld
                (worldAfter [CallBeginFrame (demoBegin VK_SUCCESS)] demoWorld)
                [CallBeginFrame (demoBegin VK_SUCCESS)]
                (observed [CallBeginFrame (demoBegin VK_SUCCESS)] demoWorld)
                102 Halloc eq_refl eq_refl) as (cur & Hslot & Hguard).
    injection Hslot as <-. exact (proj1 Hguard).
  - destruct (render_pass_only_in_frame 2 eq_refl demoConstructor demoWindow 0
                demoWorld (worldAfter demoFrameCalls demoWorld)
                demoFrameCalls (observed demoFrameCalls demoWorld)
                101 Halloc eq_refl eq_refl) as (cur & Hslot & Hguard).
    injection Hslot as <-. exact (proj2 Hguard).
Defined.

Lemma frame_index_cycles_witness :
  let w1 := worldAfter demoFrameCalls demoWorld in
  let w2 := worldAfter demoNextFrameCalls w1 in
  currentFrameIndex (renderer demoWorld) = 0
  /\ currentFrameIndex (renderer w1) = 1
  /\ currentFrameIndex (renderer w2) = 0
  /\ existsb isConstruct (skipn (List.length (trace w1)) (trace w2)) = true.
Proof.
  assert (Halloc : allocationContract 2 demoConstructor).
  { split; [reflexivity|]. repeat constructor; discriminate. }
  cbv zeta.
  destruct (frame_index_cycles 2 eq_refl demoConstructor demoWindow 0
              demoWorld demoWorld (worldAfter demoFrameCalls demoWorld)
              [] demoFrameCalls [] (observed demoFrameCalls demoWorld)
              Halloc eq_refl eq_refl eq_refl)
    as (H0 & _ & H1 & _).
  destruct (frame_index_cycles 2 eq_refl demoConstructor demoWindow 0
              demoWorld demoWorld
              (worldAfter demoNextFrameCalls
                 (worldAfter demoFrameCalls demoWorld))
              [] (demoFrameCalls ++ demoNextFrameCalls) []
              (observed (demoFrameCalls ++ demoNextFrameCalls) demoWorld)
              Halloc eq_refl eq_refl eq_refl)
    as (_ & _ & _ & _ & _ & H2 & _).
  split; [exact H0|]. split; [exact H1|]. split; [exact (H2 eq_refl)|].
  reflexivity.
Defined.

Lemma endFrame_rebuild_triggers_witness :
  let resized := withWindow (deliver (Some (mkExtent 1024 768))) demoFrame in
  exists final rest,
    worldOf (endFrame 2 (demoEnd VK_SUCCESS) resized) = Some final
    /\ trace final
       = [EvEndCommandBuffer 101 VK_SUCCESS; EvSubmit 101 1 VK_SUCCESS;
          EvResetWindowResizedFlag; EvGetExtent (mkExtent 1024 768)] ++ rest
    /\ framebufferResized (lveWindow final) = false.
Proof.
  cbv zeta.
  destruct (endFrame_rebuild_triggers 2 (demoEnd VK_SUCCESS)
              (withWindow (deliver (Some (mkExtent 1024 768))) demoFrame) 101
              eq_refl ltac:(discriminate) eq_refl eq_refl
              (or_intror (or_intror eq_refl)))
    as (_ & rebuilt & final & rest & _ & Hfinal & _ & _ & Htrace & _ & Hflag).
  exists final, rest. split; [exact Hfinal|]. split; [exact Htrace|].
  apply Hflag. reflexivity.
Defined.

Lemma endFrame_throws_after_rebuild_witness :
  exists e w',
    endFrame 2 (demoEnd VK_SUBOPTIMAL_KHR) demoFrame
    = Thrown "failed to submit command buffers!" w'
    /\ lveSwapChain (renderer w') = Some (mkChain e 44 126)
    /\ In (EvConstructChain e (Some demoChain)) (trace w')
    /\ isFrameStarted (renderer w') = true
    /\ currentFrameIndex (renderer w') = 0.
Proof.
  apply (endFrame_throws_after_rebuild 2 (demoEnd VK_SUBOPTIMAL_KHR)
           demoFrame 101 demoChain 44 126); try reflexivity.
  right. reflexivity.
Defined.

(** ** Object identities *)

Import GameObject.

Lemma counterAfter_mod (n : N) : counterAfter n = Z.of_N n mod id_modulus.
Proof.
  unfold counterAfter. induction n as [|n IH] using N.peano_ind.
  - reflexivity.
  - rewrite N.iter_succ, IH. cbn [createGameObject snd].
    rewrite N2Z.inj_succ, Zplus_mod_idemp_l. reflexivity.
Qed.

Lemma idOfCreation_mod (n : N) : idOfCreation n = Z.of_N n mod id_modulus.
Proof. unfold idOfCreation. cbn. apply counterAfter_mod. Qed.

(** C9, as the code has it.  The first 2^32 creations get the ids 0, 1, 2,
    ... in this order: strictly increasing, so no two of them share an id. *)
Theorem ids_increase_until_wrap (j k : N) :
  (j < k)%N ->
  (k < 2 ^ 32)%N ->
  idOfCreation j = Z.of_N j
  /\ idOfCreation k = Z.of_N k
  /\ idOfCreation j < idOfCreation k.
Proof.
  intros Hjk Hk. rewrite !idOfCreation_mod.
  assert (Hm : id_modulus = Z.of_N (2 ^ 32)) by reflexivity.
  rewrite !Z.mod_small by (rewrite Hm; lia). lia.
Qed.

Lemma ids_increase_until_wrap_witness :
  idOfCreation 0 = 0 /\ idOfCreation 4294967295 = 4294967295
  /\ idOfCreation 0 < idOfCreation 4294967295.
Proof.
  apply (ids_increase_until_wrap 0 4294967295); reflexivity.
Defined.

(** C9, the counterexample.  Creation number 2^32 (the first after the
    counter has wrapped) gets id 0 again, the id of the very first object:
    the ids are neither increasing nor distinct over 2^32 + 1 creations. *)
Lemma ids_repeat_after_wrap :
  (0 < 4294967296)%N
  /\ idOfCreation 4294967296 = idOfCreation 0
  /\ ~ (idOfCreation 0 < idOfCreation 4294967296).
Proof.
  rewrite !idOfCreation_mod. split; [reflexivity|].
  split; [reflexivity|]. cbv. discriminate.
Qed.

(** ** Transforms *)

Section TransformFacts.

Import Transform.
Local Open Scope R_scope.

Lemma vec4_eq (a b c d a' b' c' d' : R) :
  a = a' -> b = b' -> c = c' -> d = d' ->
  mkVec4 a b c d = mkVec4 a' b' c' d'.
Proof. intros; subst; reflexivity. Qed.

(** The product written out, entry by entry. *)
Lemma mat4_entries (t : TransformComponent) :
  let c1 := cos (y3 (rotation t)) in
  let s1 := sin (y3 (rotation t)) in
  let c2 := cos (x3 (rotation t)) in
  let s2 := sin (x3 (rotation t)) in
  let c3 := cos (z3 (rotation t)) in
  let s3 := sin (z3 (rotation t)) in
  mat4 t =
  mkMat4
    (mkVec4 (x3 (scale t) * (c1 * c3 + s1 * s2 * s3))
            (x3 (scale t) * (c2 * s3))
            (x3 (scale t) * (c1 * s2 * s3 - c3 * s1)) 0)
    (mkVec4 (y3 (scale t) * (c3 * s1 * s2 - c1 * s3))
            (y3 (scale t) * (c2 * c3))
            (y3 (scale t) * (c1 * c3 * s2 + s1 * s3)) 0)
    (mkVec4 (z3 (scale t) * (c2 * s1))
            (z3 (scale t) * (- s2))
            (z3 (scale t) * (c1 * c2)) 0)
    (mkVec4 (x3 (translation t)) (y3 (translation t)) (z3 (translation t)) 1).
Proof.
  cbv [mat4 mul mulVec Translate Scale Rx Ry Rz
       col0 col1 col2 col3 x4 y4 z4 w4].
  f_equal; apply vec4_eq; ring.
Qed.

(** C8. The model matrix of the vase (translation (0, 0.5, 2.5), scale 3
    on every axis, no rotation), composed as Translate * Ry * Rx * Rz *
    Scale, has the translation column (0, 0.5, 2.5) and the linear part
    3 * Identity; its last row is (0, 0, 0, 1). *)
Theorem vase_model_matrix :
  mat4 vaseTransform
  = mul (Translate (mkVec3 0 (1/2) (5/2)))
      (mul (Ry 0) (mul (Rx 0) (mul (Rz 0) (Scale (mkVec3 3 3 3)))))
  /\ translationColumn (mat4 vaseTransform) = mkVec3 0 (1/2) (5/2)
  /\ linearPart (mat4 vaseTransform)
     = (mkVec3 3 0 0, mkVec3 0 3 0, mkVec3 0 0 3)
  /\ mat4 vaseTransform
     = mkMat4 (mkVec4 3 0 0 0) (mkVec4 0 3 0 0) (mkVec4 0 0 3 0)
              (mkVec4 0 (1/2) (5/2) 1).
Proof.
  split; [reflexivity|].
  assert (H : mat4 vaseTransform
              = mkMat4 (mkVec4 3 0 0 0) (mkVec4 0 3 0 0) (mkVec4 0 0 3 0)
                       (mkVec4 0 (1/2) (5/2) 1)).
  { rewrite mat4_entries. cbv zeta.
    cbn [vaseTransform defaultTransform rotation scale translation x3 y3 z3].
    rewrite cos_0, sin_0. f_equal; apply vec4_eq; ring. }
  rewrite H. repeat split; reflexivity.
Qed.

End TransformFacts.

(** * Further properties of the renderer and its client *)

Ltac open_world :=
  cbv [withRenderer withWindow logged flagReset submitted acquired];
  cbn [renderer lveWindow trace lveSwapChain commandBuffers
       currentImageIndex currentFrameIndex isFrameStarted
       set_lveSwapChain set_commandBuffers set_currentImageIndex
       set_currentFrameIndex set_isFrameStarted winExtent
       framebufferResized deliver].

(** ** The rebuild procedure, at its edges *)

(** With a window that has no zero side the rebuild does not sleep at all:
    it asks for the extent once, waits for the device and builds the chain
    for exactly the extent of the window, which it leaves as it is.  It
    returns when there is no predecessor or the formats are those of the
    predecessor. *)
Theorem rebuild_without_waiting (env : RebuildEnv) (w : World)
    (image depth : VkFormat) :
  zeroExtent (winExtent (lveWindow w)) = false ->
  built env = Some (image, depth) ->
  (forall old, lveSwapChain (renderer w) = Some old ->
               image = swapChainImageFormat old
               /\ depth = swapChainDepthFormat old) ->
  let e := winExtent (lveWindow w) in
  recreateSwapChain env w =
  Returned tt
    (mkWorld (set_lveSwapChain (Some (mkChain e image depth)) (renderer w))
             (lveWindow w)
             (trace w ++ [EvGetExtent e; EvDeviceWaitIdle;
                          EvConstructChain e (lveSwapChain (renderer w))])).
Proof.
  intros Hz Hb Hfmt. cbv zeta. unfold recreateSwapChain.
  unfold bind at 1. unfold getExtent at 1. run_monad.
  assert (Hwait : forall w1,
             waitForExtent (wakeups env) (winExtent (lveWindow w)) w1
             = Returned (winExtent (lveWindow w)) w1).
  { intros w1. destruct (wakeups env); cbn [waitForExtent]; rewrite Hz;
      reflexivity. }
  rewrite Hwait. run_monad. rewrite Hb.
  destruct w as [[chain bufs img idx started] win t]. cbn in *.
  destruct chain as [old|]; cbn.
  - destruct (Hfmt old eq_refl) as [-> ->].
    unfold compareSwapFormats. cbn. rewrite !Z.eqb_refl.
    cbv [withRenderer logged set_lveSwapChain]; cbn.
    rewrite <- ?app_assoc. reflexivity.
  - cbv [withRenderer logged set_lveSwapChain]; cbn.
    rewrite <- ?app_assoc. reflexivity.
Qed.

Lemma rebuild_without_waiting_witness :
  recreateSwapChain (mkRebuildEnv [Some (mkExtent 0 0)] (Some (44, 126)))
                    demoFrame
  = Returned tt
      (mkWorld (mkRenderer (Some demoChain) [101; 102] 1 0 true) demoWindow
         [EvGetExtent (mkExtent 800 600); EvDeviceWaitIdle;
          EvConstructChain (mkExtent 800 600) (Some demoChain)]).
Proof.
  apply (rebuild_without_waiting
           (mkRebuildEnv [Some (mkExtent 0 0)] (Some (44, 126)))
           demoFrame 44 126); try reflexivity.
  intros old [= <-]. split; reflexivity.
Defined.

Lemma extentArrives_after_resize (pre post : list WindowEvent)
    (e : VkExtent2D) (ev : WindowEvent) :
  zeroExtent e = false ->
  forall read win,
    extentArrives (pre ++ Some e :: ev :: post) read win = true.
Proof.
  intros He. induction pre as [|p pre IH]; intros read win;
    cbn [app extentArrives]; destruct (zeroExtent read); try reflexivity.
  - cbn [deliver winExtent].
    destruct (zeroExtent (winExtent win)); [|reflexivity].
    destruct post; cbn [extentArrives]; rewrite He; reflexivity.
  - apply IH.
Qed.

(** A window event that gives the window an extent with no zero side,
    followed by at least one more wake-up, ends the wait whatever came
    before: the rebuild goes on to build a chain, for an extent with no
    zero side. *)
Theorem rebuild_ends_after_resize (env : RebuildEnv) (w : World)
    (pre post : list WindowEvent) (e : VkExtent2D) (ev : WindowEvent) :
  wakeups env = pre ++ Some e :: ev :: post ->
  zeroExtent e = false ->
  exists w' e',
    worldOf (recreateSwapChain env w) = Some w'
    /\ (forall w'', recreateSwapChain env w <> Blocked w'')
    /\ zeroExtent e' = false
    /\ In (EvConstructChain e' (lveSwapChain (renderer w))) (trace w').
Proof.
  intros Hev He.
  assert (Hw : waitEnds env (lveWindow w) = true).
  { unfold waitEnds. rewrite Hev. apply extentArrives_after_resize, He. }
  destruct (recreateSwapChain_ends env w Hw)
    as (e' & win' & polls & zeros & _ & _ & _ & _ & Hnz & Hrun).
  cbv zeta in Hrun. rewrite Hrun.
  assert (Hin : forall t, In (EvConstructChain e' (lveSwapChain (renderer w)))
                            (t ++ polls ++
                               [EvDeviceWaitIdle;
                                EvConstructChain e' (lveSwapChain (renderer w))])).
  { intros t. rewrite !in_app_iff. right. right. cbn. auto. }
  destruct (built env) as [[image depth]|];
    [destruct (lveSwapChain (renderer w)) as [old|];
     [destruct (compareSwapFormats _ _)|]|];
    eexists _, e'; (split; [reflexivity|]);
    (split; [discriminate|]); (split; [exact Hnz|]); apply Hin.
Qed.

Lemma rebuild_ends_after_resize_witness :
  let minimised := withWindow (fun _ => mkWindow (mkExtent 0 0) false)
                              demoFrame in
  exists w' e',
    worldOf (recreateSwapChain
               (mkRebuildEnv [None; Some (mkExtent 640 480); None]
                             (Some (44, 126))) minimised) = Some w'
    /\ zeroExtent e' = false
    /\ In (EvConstructChain e' (Some demoChain)) (trace w').
Proof.
  cbv zeta.
  destruct (rebuild_ends_after_resize
              (mkRebuildEnv [None; Some (mkExtent 640 480); None]
                            (Some (44, 126)))
              (withWindow (fun _ => mkWindow (mkExtent 0 0) false) demoFrame)
              [None] [] (mkExtent 640 480) None eq_refl eq_refl)
    as (w' & e' & Hw & _ & Hnz & Hin).
  exists w', e'. auto.
Defined.

Lemma waitForExtent_last_resize (e : VkExtent2D) (n : nat) :
  forall (read : VkExtent2D) (w : World),
    zeroExtent read = true ->
    zeroExtent (winExtent (lveWindow w)) = true ->
    exists w' polls,
      waitForExtent (repeat None n ++ [Some e]) read w = Blocked w'
      /\ lveWindow w' = mkWindow e true
      /\ renderer w' = renderer w
      /\ trace w' = trace w ++ polls
      /\ forallb isPoll polls = true.
Proof.
  induction n as [|n IH]; intros read w Hread Hwin;
    cbn [repeat app waitForExtent]; rewrite Hread.
  - run_monad. cbn [deliver].
    cbn [waitForExtent]. rewrite Hwin. run_monad.
    eexists _, [_; _; _].
    cbv [logged withWindow]; cbn [renderer lveWindow trace].
    rewrite <- !app_assoc. repeat split; reflexivity.
  - run_monad. cbn [deliver].
    match goal with
    | |- context [waitForExtent _ ?r ?v] =>
        destruct (IH r v Hwin Hwin) as (w' & polls & Hrun & Hw & Hr & Ht & Hp)
    end.
    cbn [renderer lveWindow trace logged withWindow] in *.
    exists w', (EvGetExtent (winExtent (lveWindow w))
                  :: EvWaitEvents None :: polls).
    rewrite Hrun, Ht, <- !app_assoc. cbn [app forallb isPoll andb].
    repeat split; auto.
Qed.

(** When the window has a zero side and the event that restores it is the
    last wake-up to arrive, the rebuild sleeps for ever although the window
    has an extent again: the extent is read before each sleep, not after.
    No chain is built and the renderer is left as it was. *)
Theorem rebuild_blocks_on_last_resize (env : RebuildEnv) (w : World)
    (n : nat) (e : VkExtent2D) :
  zeroExtent (winExtent (lveWindow w)) = true ->
  wakeups env = repeat None n ++ [Some e] ->
  exists w' polls,
    recreateSwapChain env w = Blocked w'
    /\ winExtent (lveWindow w') = e
    /\ renderer w' = renderer w
    /\ trace w' = trace w ++ polls
    /\ existsb isConstruct polls = false.
Proof.
  intros Hz Hev. unfold recreateSwapChain.
  unfold bind at 1. unfold getExtent at 1. run_monad. rewrite Hev.
  match goal with
  | |- context [waitForExtent _ ?r ?v] =>
      destruct (waitForExtent_last_resize e n r v Hz Hz)
        as (w' & polls & Hrun & Hw & Hr & Ht & Hp)
  end.
  cbn [renderer lveWindow trace logged] in *.
  exists w', (EvGetExtent (winExtent (lveWindow w)) :: polls).
  rewrite Hrun, Hw, Ht, <- app_assoc. repeat split; auto.
  cbn [existsb isConstruct orb].
  clear - Hp. induction polls as [|p polls IH]; [reflexivity|].
  cbn [forallb existsb] in *. apply andb_true_iff in Hp as [Hp1 Hp2].
  rewrite (IH Hp2). destruct p; try discriminate; reflexivity.
Qed.

Lemma rebuild_blocks_on_last_resize_witness :
  let minimised := withWindow (fun _ => mkWindow (mkExtent 0 0) false)
                              demoFrame in
  exists w' polls,
    recreateSwapChain
      (mkRebuildEnv [None; None; Some (mkExtent 640 480)] (Some (44, 126)))
      minimised = Blocked w'
    /\ winExtent (lveWindow w') = mkExtent 640 480
    /\ renderer w' = renderer minimised
    /\ trace w' = trace minimised ++ polls
    /\ existsb isConstruct polls = false.
Proof.
  cbv zeta.
  apply (rebuild_blocks_on_last_resize
           (mkRebuildEnv [None; None; Some (mkExtent 640 480)]
                         (Some (44, 126)))
           (withWindow (fun _ => mkWindow (mkExtent 0 0) false) demoFrame)
           2 (mkExtent 640 480)); reflexivity.
Defined.

(** A rebuild that fails on the formats has already replaced the chain: the
    renderer holds the new chain, with the formats that were refused, and
    the old one is gone.  Nothing else of the renderer has changed. *)
Theorem rebuild_format_failure_state (env : RebuildEnv) (w : World)
    (old : LveSwapChain) (image depth : VkFormat) :
  lveSwapChain (renderer w) = Some old ->
  waitEnds env (lveWindow w) = true ->
  built env = Some (image, depth) ->
  image <> swapChainImageFormat old \/ depth <> swapChainDepthFormat old ->
  exists e w',
    recreateSwapChain env w
    = Thrown "Swap chain Image or depth format has changed" w'
    /\ renderer w'
       = set_lveSwapChain (Some (mkChain e image depth)) (renderer w)
    /\ Some (mkChain e image depth) <> Some old.
Proof.
  intros Hold Hw Hb Hne.
  destruct (recreateSwapChain_ends env w Hw)
    as (e & win' & polls & zeros & _ & _ & _ & _ & _ & Hrun).
  cbv zeta in Hrun. rewrite Hb, Hold in Hrun. rewrite Hrun.
  destruct (compareSwapFormats old (mkChain e image depth)) eqn:Hc.
  - apply compareSwapFormats_true in Hc. cbn in Hc. tauto.
  - exists e. eexists. split; [reflexivity|]. split; [reflexivity|].
    intros [= <-]. cbn in Hne. tauto.
Qed.

Lemma rebuild_format_failure_state_witness :
  exists e w',
    recreateSwapChain (mkRebuildEnv [] (Some (50, 126))) demoFrame
    = Thrown "Swap chain Image or depth format has changed" w'
    /\ renderer w'
       = set_lveSwapChain (Some (mkChain e 50 126)) (renderer demoFrame)
    /\ Some (mkChain e 50 126) <> Some demoChain.
Proof.
  apply (rebuild_format_failure_state (mkRebuildEnv [] (Some (50, 126)))
           demoFrame demoChain 50 126); try reflexivity.
  left. cbn. discriminate.
Defined.

Section RendererCoverage.

Variable F : Z.
Hypothesis F_pos : 0 < F.

(** ** The constructor *)

Lemma construct_steps (env : ConstructorEnv) (window : LveWindow)
    (image0 : Z) (image depth : VkFormat) :
  waitEnds (firstBuild env) window = true ->
  built (firstBuild env) = Some (image, depth) ->
  exists e win' t,
    zeroExtent e = false
    /\ In (EvConstructChain e None) t
    /\ forall bufs,
         construct F env (newWorld window image0) =
         let w := mkWorld (mkRenderer (Some (mkChain e image depth)) bufs
                                      image0 0 false)
                          win' (t ++ [EvAllocateCommandBuffers F]) in
         if allocResult env =? VK_SUCCESS
         then (fun w => Returned tt w)
                (withRenderer
                   (set_commandBuffers
                      (map (fun i => nth i (allocated env) nullptr)
                           (seq 0 (Z.to_nat F)))) w)
         else (fun w => Thrown "failed to allocate command buffers!" w)
                (withRenderer
                   (set_commandBuffers (repeat nullptr (Z.to_nat F))) w).
Proof.
  intros Hw Hb.
  destruct (recreateSwapChain_ends (firstBuild env) (newWorld window image0) Hw)
    as (e & win' & polls & zeros & _ & _ & _ & _ & Hnz & Hrun).
  cbv zeta in Hrun. rewrite Hb in Hrun. cbn in Hrun.
  exists e, win', (polls ++ [EvDeviceWaitIdle; EvConstructChain e None]).
  split; [exact Hnz|]. split.
  { rewrite in_app_iff. right. cbn. auto. }
  intros bufs. unfold construct. unfold bind at 1. rewrite Hrun.
  unfold createCommandBuffers. run_monad. cbn.
  rewrite Z2Nat.id by lia.
  destruct (allocResult env =? VK_SUCCESS); reflexivity.
Qed.

(** The constructor, when the first chain can be built and the allocation
    succeeds as Vulkan promises, returns with a chain built without a
    predecessor (so whatever its formats, there is no format check), one
    command buffer per frame slot, in the order the driver wrote them, no
    frame in progress and frame slot 0. *)
Theorem constructor_establishes (env : ConstructorEnv) (window : LveWindow)
    (image0 : Z) (image depth : VkFormat) :
  allocationContract F env ->
  waitEnds (firstBuild env) window = true ->
  built (firstBuild env) = Some (image, depth) ->
  allocResult env = VK_SUCCESS ->
  exists e w,
    construct F env (newWorld window image0) = Returned tt w
    /\ zeroExtent e = false
    /\ lveSwapChain (renderer w) = Some (mkChain e image depth)
    /\ In (EvConstructChain e None) (trace w)
    /\ commandBuffers (renderer w) = allocated env
    /\ isFrameStarted (renderer w) = false
    /\ currentFrameIndex (renderer w) = 0
    /\ currentSlot w = nth_error (allocated env) 0.
Proof.
  intros [Hlen Hnn] Hw Hb Hok.
  destruct (construct_steps env window image0 image depth Hw Hb)
    as (e & win' & t & Hnz & Hin & Hrun).
  specialize (Hrun []). cbv zeta in Hrun. rewrite Hok in Hrun. cbn in Hrun.
  replace (Z.to_nat F) with (List.length (allocated env)) in Hrun by lia.
  rewrite map_nth_seq in Hrun.
  exists e. eexists. split; [exact Hrun|]. cbn.
  repeat split; auto. rewrite in_app_iff. auto.
Qed.

(** When [vkAllocateCommandBuffers] fails the constructor throws "failed to
    allocate command buffers!"; by then the chain is built and the vector
    holds one null handle per frame slot. *)
Theorem constructor_allocation_failure (env : ConstructorEnv)
    (window : LveWindow) (image0 : Z) (image depth : VkFormat) :
  waitEnds (firstBuild env) window = true ->
  built (firstBuild env) = Some (image, depth) ->
  allocResult env <> VK_SUCCESS ->
  exists e w,
    construct F env (newWorld window image0)
    = Thrown "failed to allocate command buffers!" w
    /\ lveSwapChain (renderer w) = Some (mkChain e image depth)
    /\ commandBuffers (renderer w) = repeat nullptr (Z.to_nat F)
    /\ Z.of_nat (List.length (commandBuffers (renderer w))) = F.
Proof.
  intros Hw Hb Hfail.
  destruct (construct_steps env window image0 image depth Hw Hb)
    as (e & win' & t & Hnz & Hin & Hrun).
  specialize (Hrun []). cbv zeta in Hrun.
  destruct (Z.eqb_spec (allocResult env) VK_SUCCESS); [contradiction|].
  exists e. eexists. split; [exact Hrun|]. cbn.
  rewrite repeat_length. repeat split; auto. lia.
Qed.

(** ** The order of [beginFrame] and [endFrame] *)

Lemma beginFrame_safe (env : BeginFrameEnv) (w : World) :
  Ready F w ->
  isFrameStarted (renderer w) = false ->
  exists w', worldOf (beginFrame env w) = Some w'.
Proof.
  intros HR Hidle. pose proof HR as (Hc & _).
  destruct (Ready_slot F w HR) as (cur & Hslot & _).
  rewrite (beginFrame_paths env w Hidle Hc), Hslot. cbv zeta.
  destruct (acquireResult env =? VK_ERROR_OUT_OF_DATE_KHR).
  - destruct (recreateSwapChain_trace (acquireRebuild env) (acquired env w))
      as (w' & rest & Hw & _).
    destruct (recreateSwapChain _ _); try discriminate; eexists; reflexivity.
  - destruct (negb _ && negb _); [eexists; reflexivity|].
    destruct (beginResult env =? VK_SUCCESS); eexists; reflexivity.
Qed.

Lemma endFrame_safe (env : EndFrameEnv) (w : World) :
  Ready F w ->
  isFrameStarted (renderer w) = true ->
  exists w', worldOf (endFrame F env w) = Some w'.
Proof.
  intros HR Hst. pose proof HR as (Hc & _).
  destruct (Ready_slot F w HR) as (cur & Hslot & _).
  rewrite (endFrame_paths F env w cur Hst Hc Hslot).
  destruct (endResult env =? VK_SUCCESS); [|eexists; reflexivity].
  unfold finishFrame.
  destruct (rebuildTriggered env w).
  - destruct (recreateSwapChain_trace (submitRebuild env)
                (flagReset (submitted env cur w))) as (w' & rest & Hw & _).
    destruct (recreateSwapChain _ _); try discriminate;
      try (eexists; reflexivity).
    destruct (submitResult env =? VK_SUCCESS); eexists; reflexivity.
  - destruct (submitResult env =? VK_SUCCESS); eexists; reflexivity.
Qed.

(** After the constructor and any sequence of calls that all returned:
    while a frame is in progress [beginFrame] fails its assertion and
    [endFrame] passes its own; while none is, [endFrame] fails its
    assertion and [beginFrame] passes its own.  Neither ever reads a
    missing chain or a frame slot that does not exist. *)
Theorem frame_calls_alternate (cenv : ConstructorEnv) (window : LveWindow)
    (image0 : Z) (w0 w : World) (cs : list Call) (obs : list Observation)
    (benv : BeginFrameEnv) (eenv : EndFrameEnv) :
  allocationContract F cenv ->
  construct F cenv (newWorld window image0) = Returned tt w0 ->
  run F cs w0 = Returned obs w ->
  if frameInProgress false obs
  then beginFrame benv w
       = AssertFailed "cannot call beginFrame while already in progress"
       /\ exists w', worldOf (endFrame F eenv w) = Some w'
  else endFrame F eenv w
       = AssertFailed "cannot call end frame while frame is not in progress"
       /\ exists w', worldOf (beginFrame benv w) = Some w'.
Proof.
  intros Halloc Hctor Hrun.
  destruct (construct_ready F F_pos cenv window image0 w0 tt Halloc Hctor)
    as (HR0 & Hidle0 & _).
  destruct (run_returned F F_pos cs w0 w obs HR0 Hrun) as (HR & Hst & _).
  rewrite Hidle0 in Hst. rewrite <- Hst.
  destruct (isFrameStarted (renderer w)) eqn:Hs.
  - split; [apply beginFrame_in_progress, Hs|apply endFrame_safe; assumption].
  - split; [apply endFrame_idle, Hs|apply beginFrame_safe; assumption].
Qed.

(** ** [endFrame], path by path *)

(** When [vkEndCommandBuffer] fails, [endFrame] throws "failed to record
    command buffer!" before anything is submitted: the renderer and the
    window are untouched, the frame is still in progress. *)
Theorem endFrame_record_failure (env : EndFrameEnv) (w : World) :
  Ready F w ->
  isFrameStarted (renderer w) = true ->
  endResult env <> VK_SUCCESS ->
  exists cb w',
    currentSlot w = Some cb
    /\ endFrame F env w = Thrown "failed to record command buffer!" w'
    /\ renderer w' = renderer w
    /\ lveWindow w' = lveWindow w
    /\ trace w' = trace w ++ [EvEndCommandBuffer cb (endResult env)].
Proof.
  intros HR Hst Hfail. pose proof HR as (Hc & _).
  destruct (Ready_slot F w HR) as (cur & Hslot & _).
  rewrite (endFrame_paths F env w cur Hst Hc Hslot).
  destruct (Z.eqb_spec (endResult env) VK_SUCCESS); [contradiction|].
  exists cur. eexists. split; [exact Hslot|]. repeat split; reflexivity.
Qed.

(** With a successful submit and no resize pending, [endFrame] returns
    without a rebuild: it logs the end of recording and the submission of
    the current slot's buffer for the acquired image, leaves the chain, the
    command buffers and the window alone, ends the frame and moves to the
    next frame slot. *)
Theorem endFrame_plain (env : EndFrameEnv) (w : World) :
  Ready F w ->
  isFrameStarted (renderer w) = true ->
  endResult env = VK_SUCCESS ->
  submitResult env = VK_SUCCESS ->
  framebufferResized (lveWindow w) = false ->
  exists cb w',
    currentSlot w = Some cb
    /\ endFrame F env w = Returned tt w'
    /\ renderer w'
       = set_currentFrameIndex ((currentFrameIndex (renderer w) + 1) mod F)
           (set_isFrameStarted false (renderer w))
    /\ lveWindow w' = lveWindow w
    /\ trace w' = trace w ++
                    [EvEndCommandBuffer cb VK_SUCCESS;
                     EvSubmit cb (currentImageIndex (renderer w)) VK_SUCCESS].
Proof.
  intros HR Hst Hend Hsub Hflag. pose proof HR as (Hc & _ & _ & Hidx).
  destruct (Ready_slot F w HR) as (cur & Hslot & _).
  rewrite (endFrame_paths F env w cur Hst Hc Hslot).
  unfold rebuildTriggered, finishFrame, submitted.
  rewrite Hend, Hsub, Hflag. cbn.
  exists cur. eexists. split; [exact Hslot|]. split; [reflexivity|].
  open_world. rewrite Z.rem_mod_nonneg by lia. rewrite <- app_assoc.
  repeat split; reflexivity.
Qed.

(** A resize the window has noticed is absorbed by [endFrame]: with a
    successful submit, the flag set and a window with no zero side,
    [endFrame] returns with a chain built for the window's extent from the
    old one, the flag cleared, the frame ended and the next frame slot
    current. *)
Theorem endFrame_absorbs_resize (env : EndFrameEnv) (w : World)
    (old : LveSwapChain) :
  Ready F w ->
  isFrameStarted (renderer w) = true ->
  endResult env = VK_SUCCESS ->
  submitResult env = VK_SUCCESS ->
  framebufferResized (lveWindow w) = true ->
  zeroExtent (winExtent (lveWindow w)) = false ->
  lveSwapChain (renderer w) = Some old ->
  built (submitRebuild env)
  = Some (swapChainImageFormat old, swapChainDepthFormat old) ->
  let e := winExtent (lveWindow w) in
  let new := mkChain e (swapChainImageFormat old) (swapChainDepthFormat old) in
  exists cb w',
    currentSlot w = Some cb
    /\ endFrame F env w = Returned tt w'
    /\ renderer w'
       = set_lveSwapChain (Some new)
           (set_currentFrameIndex
              ((currentFrameIndex (renderer w) + 1) mod F)
              (set_isFrameStarted false (renderer w)))
    /\ lveWindow w' = mkWindow e false
    /\ trace w' = trace w ++
                    [EvEndCommandBuffer cb VK_SUCCESS;
                     EvSubmit cb (currentImageIndex (renderer w)) VK_SUCCESS;
                     EvResetWindowResizedFlag; EvGetExtent e;
                     EvDeviceWaitIdle; EvConstructChain e (Some old)].
Proof.
  intros HR Hst Hend Hsub Hflag Hz Hold Hb. cbv zeta.
  pose proof HR as (Hc & _ & _ & Hidx).
  destruct (Ready_slot F w HR) as (cur & Hslot & _).
  rewrite (endFrame_paths F env w cur Hst Hc Hslot).
  unfold rebuildTriggered. rewrite Hend, Hsub, Hflag. cbn [Z.eqb VK_SUCCESS orb].
  rewrite (rebuild_without_waiting (submitRebuild env)
             (flagReset (submitted env cur w))
             (swapChainImageFormat old) (swapChainDepthFormat old)).
  - unfold finishFrame. rewrite Hsub. cbn.
    exists cur. eexists. split; [exact Hslot|]. split; [reflexivity|].
    open_world. rewrite Hold, Hend, Hsub, Z.rem_mod_nonneg by lia.
    rewrite <- !app_assoc. repeat split; reflexivity.
  - exact Hz.
  - exact Hb.
  - cbn. rewrite Hold. intros ? [= <-]. split; reflexivity.
Qed.

(** ** [beginFrame], what it leaves alone *)

(** Unless [acquireNextImage] reports out of date, [beginFrame] never
    rebuilds: however it ends, the chain and the window are the ones it
    started with and the log has gained no rebuild event.  A suboptimal
    acquire in particular goes on with the chain as it is. *)
Theorem beginFrame_keeps_chain (env : BeginFrameEnv) (w w' : World) :
  acquireResult env <> VK_ERROR_OUT_OF_DATE_KHR ->
  worldOf (beginFrame env w) = Some w' ->
  lveSwapChain (renderer w') = lveSwapChain (renderer w)
  /\ lveWindow w' = lveWindow w
  /\ commandBuffers (renderer w') = commandBuffers (renderer w)
  /\ currentFrameIndex (renderer w') = currentFrameIndex (renderer w)
  /\ exists added,
       trace w' = trace w ++ added
       /\ existsb isRebuildEvent added = false.
Proof.
  intros Hne Hrun.
  destruct (isFrameStarted (renderer w)) eqn:Hidle.
  { rewrite beginFrame_in_progress in Hrun by exact Hidle. discriminate. }
  destruct (lveSwapChain (renderer w)) as [old|] eqn:Hold.
  2:{ revert Hrun. unfold beginFrame. run_monad. rewrite Hidle.
      cbn [negb]. rewrite Hold. discriminate. }
  assert (Hc : lveSwapChain (renderer w) <> None) by congruence.
  rewrite (beginFrame_paths env w Hidle Hc) in Hrun.
  destruct (Z.eqb_spec (acquireResult env) VK_ERROR_OUT_OF_DATE_KHR);
    [contradiction|].
  destruct (negb _ && negb _).
  - injection Hrun as <-. open_world. rewrite Hold.
    repeat split. exists [EvAcquireNextImage (acquireResult env)]. auto.
  - destruct (currentSlot w) as [cb|]; [|discriminate]. cbv zeta in Hrun.
    assert (Hw' : w' = logged (EvBeginCommandBuffer cb (beginResult env))
                         (withRenderer (set_isFrameStarted true)
                                       (acquired env w)))
      by (destruct (beginResult env =? VK_SUCCESS); injection Hrun as <-;
          reflexivity).
    rewrite Hw'. open_world. rewrite Hold. repeat split.
    exists [EvAcquireNextImage (acquireResult env);
            EvBeginCommandBuffer cb (beginResult env)].
    rewrite <- app_assoc. auto.
Qed.

(** When [vkBeginCommandBuffer] fails, [beginFrame] throws with
    [isFrameStarted] already set: on the renderer it leaves behind, another
    [beginFrame] fails its assertion. *)
Theorem beginFrame_record_failure (env next : BeginFrameEnv) (w : World) :
  Ready F w ->
  isFrameStarted (renderer w) = false ->
  acquireResult env = VK_SUCCESS \/ acquireResult env = VK_SUBOPTIMAL_KHR ->
  beginResult env <> VK_SUCCESS ->
  exists w',
    beginFrame env w = Thrown "failed to begin recording command buffer!" w'
    /\ isFrameStarted (renderer w') = true
    /\ currentFrameIndex (renderer w') = currentFrameIndex (renderer w)
    /\ beginFrame next w'
       = AssertFailed "cannot call beginFrame while already in progress".
Proof.
  intros HR Hidle Hok Hfail. pose proof HR as (Hc & _).
  destruct (Ready_slot F w HR) as (cur & Hslot & _).
  rewrite (beginFrame_paths env w Hidle Hc), Hslot. cbv zeta.
  assert (Hpath :
            (acquireResult env =? VK_ERROR_OUT_OF_DATE_KHR) = false
            /\ negb (acquireResult env =? VK_SUCCESS)
               && negb (acquireResult env =? VK_SUBOPTIMAL_KHR) = false).
  { destruct Hok as [-> | ->]; split; reflexivity. }
  destruct Hpath as [-> ->].
  destruct (Z.eqb_spec (beginResult env) VK_SUCCESS); [contradiction|].
  eexists. split; [reflexivity|]. split; [reflexivity|].
  split; [reflexivity|]. apply beginFrame_in_progress. reflexivity.
Qed.

(** ** From a resize to the next render pass *)


(** ** The loop of [FirstApp::run] *)

Lemma Ready_same_renderer (w w' : World) :
  renderer w' = renderer w -> Ready F w -> Ready F w'.
Proof. unfold Ready. intros ->. auto. Qed.

Lemma currentSlot_same_renderer (w w' : World) :
  renderer w' = renderer w -> currentSlot w' = currentSlot w.
Proof. unfold currentSlot. intros ->. reflexivity. Qed.

Lemma beginFrame_returns_slot (env : BeginFrameEnv) (w w' : World)
    (cb : VkCommandBuffer) :
  Ready F w ->
  beginFrame env w = Returned cb w' ->
  cb <> nullptr ->
  currentSlot w' = Some cb.
Proof.
  intros HR Hrun Hnn.
  destruct (isFrameStarted (renderer w)) eqn:Hidle.
  { rewrite beginFrame_in_progress in Hrun by exact Hidle. discriminate. }
  pose proof HR as (Hc & _).
  destruct (Ready_slot F w HR) as (cur & Hslot & _).
  rewrite (beginFrame_paths env w Hidle Hc), Hslot in Hrun. cbv zeta in Hrun.
  destruct (acquireResult env =? VK_ERROR_OUT_OF_DATE_KHR).
  - destruct (recreateSwapChain _ _); try discriminate.
    injection Hrun as <- _. contradiction.
  - destruct (negb _ && negb _); [discriminate|].
    destruct (beginResult env =? VK_SUCCESS); [|discriminate].
    injection Hrun as <- <-. rewrite <- Hslot.
    unfold currentSlot. open_world. reflexivity.
Qed.

Lemma frameIteration_outcome (it : IterationEnv) (w : World) :
  Ready F w ->
  isFrameStarted (renderer w) = false ->
  match frameIteration F it w with
  | Returned drawn w' =>
      Ready F w'
      /\ isFrameStarted (renderer w') = false
      /\ currentFrameIndex (renderer w')
         = (currentFrameIndex (renderer w) + (if drawn then 1 else 0)) mod F
  | Thrown _ _ | Blocked _ => True
  | AssertFailed _ | Undefined => False
  end.
Proof.
  intros HR Hidle.
  set (w0 := withWindow (deliver (polled it)) w).
  assert (HR0 : Ready F w0) by (apply (Ready_same_renderer w); auto).
  assert (Hidle0 : isFrameStarted (renderer w0) = false) by exact Hidle.
  assert (Hi0 : currentFrameIndex (renderer w0) = currentFrameIndex (renderer w))
    by reflexivity.
  unfold frameIteration. unfold bind at 1. unfold modify at 1. fold w0.
  unfold bind at 1. unfold getAspectRatio, theSwapChain.
  unfold bind at 1 2. unfold gets at 1.
  pose proof HR0 as (Hc0 & _ & _ & Hidx0).
  destruct (lveSwapChain (renderer w0)) as [chain0|] eqn:Hchain0;
    [|congruence]. unfold ret at 1 2. unfold bind at 1.
  destruct (beginFrame_safe (frameBegin it) w0 HR0 Hidle0) as (wb & Hsafe).
  destruct (beginFrame (frameBegin it) w0) as [cb w1| | | |] eqn:Hbegin;
    try discriminate; try exact I.
  destruct (beginFrame_returned F (frameBegin it) w0 w1 cb HR0 Hbegin)
    as (HR1 & _ & Hst1 & Hi1).
  destruct (Z.eqb_spec cb nullptr) as [Hnull|Hnn].
  - unfold ret. rewrite Hi1, Hi0, Z.add_0_r, Z.mod_small by (rewrite <- Hi0; lia).
    auto.
  - cbn [negb] in Hst1.
    pose proof (beginFrame_returns_slot (frameBegin it) w0 w1 cb HR0 Hbegin Hnn)
      as Hslot1.
    pose proof HR1 as (Hc1 & _).
    destruct (lveSwapChain (renderer w1)) as [chain1|] eqn:Hchain1;
      [|congruence].
    unfold bind at 1.
    rewrite (beginSwapChainRenderPass_paths w1 chain1 cb cb Hchain1 Hslot1).
    rewrite Hst1, Z.eqb_refl.
    unfold bind at 1. unfold renderGameObjects, ret at 1.
    unfold bind at 1.
    match goal with
    | |- context [endSwapChainRenderPass cb ?v] =>
        set (w2 := v);
        assert (Hr2 : renderer w2 = renderer w1) by reflexivity
    end.
    rewrite (endSwapChainRenderPass_paths w2 cb cb)
      by (rewrite (currentSlot_same_renderer w1 w2 Hr2); exact Hslot1).
    rewrite Hr2, Hst1, Z.eqb_refl.
    unfold bind at 1.
    set (w3 := logged (EvCmdEndRenderPass cb) w2).
    assert (Hr3 : renderer w3 = renderer w1) by reflexivity.
    assert (HR3 : Ready F w3) by (apply (Ready_same_renderer w1); auto).
    assert (Hst3 : isFrameStarted (renderer w3) = true)
      by (rewrite Hr3; exact Hst1).
    destruct (endFrame_safe (frameEnd it) w3 HR3 Hst3) as (we & Hsafe3).
    destruct (endFrame F (frameEnd it) w3) as [u w4| | | |] eqn:Hend;
      try discriminate; try exact I.
    destruct (endFrame_returned F F_pos (frameEnd it) w3 w4 u HR3 Hend)
      as (HR4 & _ & _ & Hst4 & Hi4).
    unfold ret. rewrite Hi4, Hr3, Hi1, Hi0. auto.
Qed.

Lemma frameLoop_outcome (its : list IterationEnv) :
  forall w : World,
    Ready F w ->
    isFrameStarted (renderer w) = false ->
    match frameLoop F its w with
    | Returned n w' =>
        Ready F w'
        /\ isFrameStarted (renderer w') = false
        /\ currentFrameIndex (renderer w')
           = (currentFrameIndex (renderer w) + n) mod F
        /\ 0 <= n <= Z.of_nat (List.length its)
    | Thrown _ _ | Blocked _ => True
    | AssertFailed _ | Undefined => False
    end.
Proof.
  induction its as [|it its IH]; intros w HR Hidle; cbn [frameLoop].
  - unfold ret. rewrite Z.add_0_r, Z.mod_small by apply HR.
    split; [exact HR|]. split; [exact Hidle|]. split; [reflexivity|].
    cbn. lia.
  - unfold bind at 1.
    pose proof (frameIteration_outcome it w HR Hidle) as Hit.
    destruct (frameIteration F it w) as [drawn w1| | | |]; auto.
    destruct Hit as (HR1 & Hidle1 & Hi1).
    unfold bind at 1. specialize (IH w1 HR1 Hidle1).
    destruct (frameLoop F its w1) as [n w2| | | |]; auto.
    destruct IH as (HR2 & Hidle2 & Hi2 & Hn).
    unfold ret. split; [exact HR2|]. split; [exact Hidle2|]. split.
    + rewrite Hi2, Hi1, Zplus_mod_idemp_l. f_equal. lia.
    + cbn [List.length]. destruct drawn; lia.
Qed.

(** The loop of [FirstApp::run] keeps to the contract of the renderer: after
    the constructor, whatever the backend answers, no iteration fails an
    assertion, reads a missing chain or indexes past the command buffers.
    When the loop ends, no frame is in progress, the number of frames drawn
    is at most the number of iterations, the frame slot is that number
    modulo [F], and the last thing done is to wait for the device. *)
Theorem frame_loop_is_safe (cenv : ConstructorEnv) (window : LveWindow)
    (image0 : Z) (w0 : World) (its : list IterationEnv) :
  allocationContract F cenv ->
  construct F cenv (newWorld window image0) = Returned tt w0 ->
  match runApp F its w0 with
  | Returned n w =>
      isFrameStarted (renderer w) = false
      /\ 0 <= n <= Z.of_nat (List.length its)
      /\ currentFrameIndex (renderer w) = n mod F
      /\ exists t, trace w = t ++ [EvDeviceWaitIdle]
  | Thrown _ _ | Blocked _ => True
  | AssertFailed _ | Undefined => False
  end.
Proof.
  intros Halloc Hctor.
  destruct (construct_ready F F_pos cenv window image0 w0 tt Halloc Hctor)
    as (HR0 & Hidle0 & Hi0).
  unfold runApp. unfold bind at 1.
  pose proof (frameLoop_outcome its w0 HR0 Hidle0) as Hloop.
  destruct (frameLoop F its w0) as [n w1| | | |]; auto.
  destruct Hloop as (HR1 & Hidle1 & Hi1 & Hn).
  run_monad. rewrite Hi0, Z.add_0_l in Hi1.
  repeat split; auto; try lia. exists (trace w1). reflexivity.
Qed.

(** ** The command buffers of the frame slots *)

Lemma recreateSwapChain_keeps_buffers (env : RebuildEnv) (w w' : World) :
  worldOf (recreateSwapChain env w) = Some w' ->
  commandBuffers (renderer w') = commandBuffers (renderer w).
Proof.
  destruct (waitEnds env (lveWindow w)) eqn:Hw.
  - destruct (recreateSwapChain_ends env w Hw)
      as (e & win' & polls & zeros & _ & _ & _ & _ & _ & Hrun).
    cbv zeta in Hrun. rewrite Hrun.
    destruct (built env) as [[image depth]|];
      [destruct (lveSwapChain (renderer w)) as [old|];
       [destruct (compareSwapFormats _ _)|]|];
      cbn [worldOf]; intros [= <-]; reflexivity.
  - destruct (recreateSwapChain_blocks env w Hw)
      as (w1 & polls & _ & Hrun & Hr & _).
    rewrite Hrun. cbn [worldOf]. intros [= <-]. rewrite Hr. reflexivity.
Qed.

Lemma call_keeps_buffers (c : Call) (w w' : World) (o : Observation) :
  Ready F w ->
  call F c w = Returned o w' ->
  commandBuffers (renderer w') = commandBuffers (renderer w).
Proof.
  intros HR. pose proof HR as (Hc & _).
  destruct (Ready_slot F w HR) as (cur & Hslot & _).
  destruct c as [ev|env|cb|cb|env]; unfold call; unfold bind at 1.
  - run_monad. intros [= <- <-]. reflexivity.
  - destruct (beginFrame env w) as [cb w1| | | |] eqn:Hrun; try discriminate.
    intros [= <- <-].
    destruct (isFrameStarted (renderer w)) eqn:Hidle.
    { rewrite beginFrame_in_progress in Hrun by exact Hidle. discriminate. }
    rewrite (beginFrame_paths env w Hidle Hc), Hslot in Hrun.
    cbv zeta in Hrun.
    destruct (acquireResult env =? VK_ERROR_OUT_OF_DATE_KHR).
    + destruct (recreateSwapChain _ _) as [u w2| | | |] eqn:Hre;
        try discriminate.
      injection Hrun as _ <-.
      rewrite (recreateSwapChain_keeps_buffers (acquireRebuild env)
                 (acquired env w) w2) by (rewrite Hre; reflexivity).
      reflexivity.
    + destruct (negb _ && negb _); [discriminate|].
      destruct (beginResult env =? VK_SUCCESS); [|discriminate].
      injection Hrun as _ <-. reflexivity.
  - destruct (lveSwapChain (renderer w)) as [chain|] eqn:Hchain; [|congruence].
    rewrite (beginSwapChainRenderPass_paths w chain cur cb Hchain Hslot).
    destruct (isFrameStarted (renderer w)); [|discriminate].
    destruct (cb =? cur); [|discriminate].
    intros [= <- <-]. reflexivity.
  - rewrite (endSwapChainRenderPass_paths w cur cb Hslot).
    destruct (isFrameStarted (renderer w)); [|discriminate].
    destruct (cb =? cur); [|discriminate].
    intros [= <- <-]. reflexivity.
  - destruct (endFrame F env w) as [u w1| | | |] eqn:Hrun; try discriminate.
    intros [= <- <-].
    destruct (isFrameStarted (renderer w)) eqn:Hst.
    2:{ rewrite endFrame_idle in Hrun by exact Hst. discriminate. }
    rewrite (endFrame_paths F env w cur Hst Hc Hslot) in Hrun.
    destruct (endResult env =? VK_SUCCESS); [|discriminate].
    unfold finishFrame in Hrun.
    destruct (rebuildTriggered env w).
    + destruct (recreateSwapChain _ _) as [u2 w2| | | |] eqn:Hre;
        try discriminate.
      destruct (submitResult env =? VK_SUCCESS); [|discriminate].
      injection Hrun as _ <-. open_world.
      rewrite (recreateSwapChain_keeps_buffers (submitRebuild env)
                 (flagReset (submitted env cur w)) w2)
        by (rewrite Hre; reflexivity).
      reflexivity.
    + destruct (submitResult env =? VK_SUCCESS); [|discriminate].
      injection Hrun as _ <-. reflexivity.
Qed.

Lemma run_keeps_buffers (cs : list Call) :
  forall (w w' : World) (obs : list Observation),
    Ready F w ->
    run F cs w = Returned obs w' ->
    commandBuffers (renderer w') = commandBuffers (renderer w).
Proof.
  induction cs as [|c cs IH]; intros w w' obs HR; cbn [run].
  - intros [= _ <-]. reflexivity.
  - unfold bind at 1.
    destruct (call F c w) as [o w1| | | |] eqn:Hcall; try discriminate.
    unfold bind at 1.
    destruct (run F cs w1) as [os w2| | | |] eqn:Hrun; try discriminate.
    intros [= _ <-].
    destruct (call_returned F F_pos c w w1 o HR Hcall) as (HR1 & _).
    rewrite (IH w1 w2 os HR1 Hrun).
    apply (call_keeps_buffers c w w1 o HR Hcall).
Qed.

(** The command buffers are allocated once: after the constructor, no
    sequence of calls, with whatever rebuilds it causes, changes the vector
    of command buffers, and frame number k (counting completed frames from
    0) records into the buffer the driver wrote at position k mod [F]. *)
Theorem slot_buffers_are_fixed (cenv : ConstructorEnv) (window : LveWindow)
    (image0 : Z) (w0 w : World) (cs : list Call) (obs : list Observation) :
  allocationContract F cenv ->
  construct F cenv (newWorld window image0) = Returned tt w0 ->
  run F cs w0 = Returned obs w ->
  commandBuffers (renderer w) = allocated cenv
  /\ currentSlot w
     = nth_error (allocated cenv) (Z.to_nat (completedFrames obs mod F)).
Proof.
  intros Halloc Hctor Hrun.
  destruct (construct_ready F F_pos cenv window image0 w0 tt Halloc Hctor)
    as (HR0 & _ & Hi0).
  destruct (run_returned F F_pos cs w0 w obs HR0 Hrun) as (HR & _ & Hi).
  assert (Hbufs0 : commandBuffers (renderer w0) = allocated cenv).
  { revert Hctor. unfold construct. unfold bind at 1.
    destruct (recreateSwapChain _ _) as [u w1| | | |]; try discriminate.
    unfold createCommandBuffers. run_monad. cbn.
    destruct (allocResult cenv =? VK_SUCCESS); cbn [negb]; [|discriminate].
    intros [= <-]. cbn. destruct Halloc as [Hlen _].
    replace (Z.to_nat F) with (List.length (allocated cenv)) by lia.
    apply map_nth_seq. }
  rewrite <- Hbufs0, <- (run_keeps_buffers cs w0 w obs HR0 Hrun).
  split; [reflexivity|].
  unfold currentSlot. rewrite Hi, Hi0, Z.add_0_l.
  destruct (Z.ltb_spec (completedFrames obs mod F) 0) as [Hneg|_];
    [|reflexivity].
  pose proof (Z.mod_pos_bound (completedFrames obs) F F_pos). lia.
Qed.

End RendererCoverage.

Lemma constructor_establishes_witness :
  exists e w,
    construct 2 demoConstructor (newWorld demoWindow 0) = Returned tt w
    /\ zeroExtent e = false
    /\ lveSwapChain (renderer w) = Some (mkChain e 44 126)
    /\ In (EvConstructChain e None) (trace w)
    /\ commandBuffers (renderer w) = [101; 102]
    /\ isFrameStarted (renderer w) = false
    /\ currentFrameIndex (renderer w) = 0
    /\ currentSlot w = Some 101.
Proof.
  apply (constructor_establishes 2 eq_refl demoConstructor demoWindow 0 44 126);
    try reflexivity.
  split; [reflexivity|]. repeat constructor; discriminate.
Defined.

Lemma constructor_allocation_failure_witness :
  exists e w,
    construct 2 (mkConstructorEnv demoBuild (-1) []) (newWorld demoWindow 0)
    = Thrown "failed to allocate command buffers!" w
    /\ lveSwapChain (renderer w) = Some (mkChain e 44 126)
    /\ commandBuffers (renderer w) = [nullptr; nullptr]
    /\ Z.of_nat (List.length (commandBuffers (renderer w))) = 2.
Proof.
  apply (constructor_allocation_failure 2 eq_refl
           (mkConstructorEnv demoBuild (-1) []) demoWindow 0 44 126);
    try reflexivity.
  discriminate.
Defined.

Lemma frame_calls_alternate_witness :
  beginFrame (demoBegin VK_SUCCESS)
    (worldAfter [CallBeginFrame (demoBegin VK_SUCCESS)] demoWorld)
  = AssertFailed "cannot call beginFrame while already in progress"
  /\ endFrame 2 (demoEnd VK_SUCCESS) demoWorld
     = AssertFailed "cannot call end frame while frame is not in progress".
Proof.
  assert (Halloc : allocationContract 2 demoConstructor).
  { split; [reflexivity|]. repeat constructor; discriminate. }
  split.
  - exact (proj1 (frame_calls_alternate 2 eq_refl demoConstructor demoWindow 0
                    demoWorld
                    (worldAfter [CallBeginFrame (demoBegin VK_SUCCESS)]
                                demoWorld)
                    [CallBeginFrame (demoBegin VK_SUCCESS)]
                    (observed [CallBeginFrame (demoBegin VK_SUCCESS)]
                              demoWorld)
                    (demoBegin VK_SUCCESS) (demoEnd VK_SUCCESS)
                    Halloc eq_refl eq_refl)).
  - exact (proj1 (frame_calls_alternate 2 eq_refl demoConstructor demoWindow 0
                    demoWorld demoWorld [] []
                    (demoBegin VK_SUCCESS) (demoEnd VK_SUCCESS)
                    Halloc eq_refl eq_refl)).
Defined.

Lemma endFrame_record_failure_witness :
  exists cb w',
    currentSlot demoFrame = Some cb
    /\ endFrame 2 (mkEndFrameEnv (-1) VK_SUCCESS demoBuild) demoFrame
       = Thrown "failed to record command buffer!" w'
    /\ renderer w' = renderer demoFrame
    /\ lveWindow w' = lveWindow demoFrame
    /\ trace w' = trace demoFrame ++ [EvEndCommandBuffer cb (-1)].
Proof.
  apply (endFrame_record_failure 2
           (mkEndFrameEnv (-1) VK_SUCCESS demoBuild) demoFrame);
    [solve_ready|reflexivity|discriminate].
Defined.

Lemma endFrame_plain_witness :
  exists cb w',
    currentSlot demoFrame = Some cb
    /\ endFrame 2 (demoEnd VK_SUCCESS) demoFrame = Returned tt w'
    /\ renderer w'
       = set_currentFrameIndex 1 (set_isFrameStarted false (renderer demoFrame))
    /\ lveWindow w' = lveWindow demoFrame
    /\ trace w' = trace demoFrame ++
                    [EvEndCommandBuffer cb VK_SUCCESS;
                     EvSubmit cb 1 VK_SUCCESS].
Proof.
  apply (endFrame_plain 2 eq_refl (demoEnd VK_SUCCESS) demoFrame);
    [solve_ready|reflexivity..].
Defined.

Lemma endFrame_absorbs_resize_witness :
  let resized := withWindow (deliver (Some (mkExtent 1024 768))) demoFrame in
  exists cb w',
    currentSlot resized = Some cb
    /\ endFrame 2 (demoEnd VK_SUCCESS) resized = Returned tt w'
    /\ lveSwapChain (renderer w') = Some (mkChain (mkExtent 1024 768) 44 126)
    /\ lveWindow w' = mkWindow (mkExtent 1024 768) false.
Proof.
  cbv zeta.
  destruct (endFrame_absorbs_resize 2 eq_refl (demoEnd VK_SUCCESS)
              (withWindow (deliver (Some (mkExtent 1024 768))) demoFrame)
              demoChain ltac:(solve_ready) eq_refl eq_refl eq_refl eq_refl
              eq_refl eq_refl eq_refl)
    as (cb & w' & Hslot & Hrun & Hr & Hwin & _).
  exists cb, w'. rewrite Hr. auto.
Defined.

Lemma beginFrame_keeps_chain_witness :
  exists w',
    worldOf (beginFrame (demoBegin VK_SUBOPTIMAL_KHR) demoWorld) = Some w'
    /\ lveSwapChain (renderer w') = Some demoChain
    /\ lveWindow w' = demoWindow.
Proof.
  eexists. split; [reflexivity|].
  destruct (beginFrame_keeps_chain (demoBegin VK_SUBOPTIMAL_KHR) demoWorld _
              ltac:(discriminate) eq_refl) as (Hc & Hw & _).
  split; [exact Hc|exact Hw].
Defined.

Lemma beginFrame_record_failure_witness :
  exists w',
    beginFrame (mkBeginFrameEnv VK_SUCCESS 1 demoBuild (-1)) demoWorld
    = Thrown "failed to begin recording command buffer!" w'
    /\ isFrameStarted (renderer w') = true
    /\ currentFrameIndex (renderer w') = 0
    /\ beginFrame (demoBegin VK_SUCCESS) w'
       = AssertFailed "cannot call beginFrame while already in progress".
Proof.
  apply (beginFrame_record_failure 2
           (mkBeginFrameEnv VK_SUCCESS 1 demoBuild (-1))
           (demoBegin VK_SUCCESS) demoWorld);
    [solve_ready|reflexivity|left; reflexivity|discriminate].
Defined.


Lemma frame_loop_is_safe_witness :
  let its := [mkIterationEnv None (demoBegin VK_SUCCESS) (demoEnd VK_SUCCESS);
              mkIterationEnv (Some (mkExtent 1024 768))
                (demoBegin VK_ERROR_OUT_OF_DATE_KHR) (demoEnd VK_SUCCESS);
              mkIterationEnv None (demoBegin VK_SUBOPTIMAL_KHR)
                (demoEnd VK_SUCCESS)] in
  exists w,
    runApp 2 its demoWorld = Returned 2 w
    /\ isFrameStarted (renderer w) = false
    /\ currentFrameIndex (renderer w) = 0.
Proof.
  cbv zeta.
  assert (Halloc : allocationContract 2 demoConstructor).
  { split; [reflexivity|]. repeat constructor; discriminate. }
  pose proof (frame_loop_is_safe 2 eq_refl demoConstructor demoWindow 0
                demoWorld
                [mkIterationEnv None (demoBegin VK_SUCCESS)
                   (demoEnd VK_SUCCESS);
                 mkIterationEnv (Some (mkExtent 1024 768))
                   (demoBegin VK_ERROR_OUT_OF_DATE_KHR) (demoEnd VK_SUCCESS);
                 mkIterationEnv None (demoBegin VK_SUBOPTIMAL_KHR)
                   (demoEnd VK_SUCCESS)]
                Halloc eq_refl) as Hsafe.
  eexists. split; [reflexivity|].
  cbv beta iota delta [runApp] in Hsafe. vm_compute in Hsafe.
  destruct Hsafe as (Hidle & _ & Hidx & _).
  split; [exact Hidle|exact Hidx].
Defined.

(** ** The destructor *)

Section Destructor.

Variable toFloat : Z -> Z.

(** A [float] has 24 significant bits: every count up to 2^24 converts
    exactly. *)
Hypothesis toFloat_exact : forall n, 0 <= n <= 2 ^ 24 -> toFloat n = n.

(** The destructor hands the driver every command buffer of the renderer,
    with the right count, and leaves the vector empty, as long as the count
    survives the conversion to [float]: up to 2^24 command buffers. *)
Theorem destructor_frees_all (w : World) :
  Z.of_nat (List.length (commandBuffers (renderer w))) <= 2 ^ 24 ->
  destructor toFloat w
  = Returned (Z.of_nat (List.length (commandBuffers (renderer w))),
              commandBuffers (renderer w))
             (withRenderer (set_commandBuffers []) w).
Proof.
  intros Hlen. unfold destructor, freeCommandBuffers. run_monad.
  rewrite toFloat_exact by lia.
  set (n := Z.of_nat (List.length (commandBuffers (renderer w)))) in *.
  assert (Hn : 0 <= n) by (unfold n; lia).
  destruct (Z.ltb_spec n 0); [lia|].
  destruct (Z.leb_spec (2 ^ 32) n); [lia|].
  rewrite Z.ltb_irrefl. cbn [orb].
  unfold n. rewrite Nat2Z.id, firstn_all. reflexivity.
Qed.

End Destructor.

Lemma roundToFloat_exact (n : Z) : 0 <= n <= 2 ^ 24 -> roundToFloat n = n.
Proof.
  intros Hn. unfold roundToFloat.
  destruct (Z.ltb_spec n (2 ^ 24)); [reflexivity|].
  replace n with (2 ^ 24) by lia. reflexivity.
Qed.

Lemma destructor_frees_all_witness :
  destructor roundToFloat demoWorld
  = Returned (2, [101; 102])
      (withRenderer (set_commandBuffers []) demoWorld).
Proof.
  apply (destructor_frees_all roundToFloat roundToFloat_exact demoWorld).
  cbn. lia.
Defined.

(** ** Object identities, when they repeat *)

(** Two creations get the same id exactly when their numbers differ by a
    multiple of 2^32: an id comes back after 2^32 further creations and
    not before. *)
Theorem ids_equal_iff (j k : N) :
  idOfCreation j = idOfCreation k <-> (j mod 2 ^ 32 = k mod 2 ^ 32)%N.
Proof.
  rewrite !idOfCreation_mod.
  assert (Hm : id_modulus = Z.of_N (2 ^ 32)) by reflexivity.
  rewrite Hm, <- !N2Z.inj_mod. split.
  - apply N2Z.inj.
  - intros ->. reflexivity.
Qed.

(** ** Transforms *)

Section TransformCoverage.

Import Transform.
Local Open Scope R_scope.

(** Whatever the rotation and the scale, the model matrix is affine (its
    last row is (0, 0, 0, 1)) and carries the translation unchanged in its
    last column; the transform an object starts with, from the member
    initialisers, gives the identity. *)
Theorem mat4_is_affine (t : TransformComponent) :
  translationColumn (mat4 t) = translation t
  /\ w4 (col0 (mat4 t)) = 0 /\ w4 (col1 (mat4 t)) = 0
  /\ w4 (col2 (mat4 t)) = 0 /\ w4 (col3 (mat4 t)) = 1
  /\ mat4 defaultTransform
     = mkMat4 (mkVec4 1 0 0 0) (mkVec4 0 1 0 0) (mkVec4 0 0 1 0)
              (mkVec4 0 0 0 1).
Proof.
  rewrite !mat4_entries. cbv zeta.
  unfold translationColumn. cbn [col0 col1 col2 col3 x4 y4 z4 w4].
  split; [destruct (translation t); reflexivity|].
  repeat (split; [reflexivity|]).
  cbn [defaultTransform rotation scale translation x3 y3 z3].
  rewrite cos_0, sin_0. f_equal; apply vec4_eq; ring.
Qed.

(** The three columns of the linear part are orthogonal to each other, and
    each has the length of its scale factor: the rotations turn the scaled
    axes without shearing them. *)
Theorem mat4_columns_orthogonal (t : TransformComponent) :
  let '(c0, c1, c2) := linearPart (mat4 t) in
  dot3 c0 c1 = 0 /\ dot3 c0 c2 = 0 /\ dot3 c1 c2 = 0
  /\ dot3 c0 c0 = x3 (scale t) * x3 (scale t)
  /\ dot3 c1 c1 = y3 (scale t) * y3 (scale t)
  /\ dot3 c2 c2 = z3 (scale t) * z3 (scale t).
Proof.
  rewrite mat4_entries. cbv zeta.
  unfold linearPart, dot3. cbn [col0 col1 col2 col3 x4 y4 z4 w4 x3 y3 z3].
  pose proof (sin2_cos2 (x3 (rotation t))) as Hx.
  pose proof (sin2_cos2 (y3 (rotation t))) as Hy.
  pose proof (sin2_cos2 (z3 (rotation t))) as Hz.
  unfold Rsqr in Hx, Hy, Hz.
  set (c1 := cos (y3 (rotation t))) in *.
  set (s1 := sin (y3 (rotation t))) in *.
  set (c2 := cos (x3 (rotation t))) in *.
  set (s2 := sin (x3 (rotation t))) in *.
  set (c3 := cos (z3 (rotation t))) in *.
  set (s3 := sin (z3 (rotation t))) in *.
  clearbody c1 s1 c2 s2 c3 s3.
  repeat split; nsatz.
Qed.

End TransformCoverage.

Lemma slot_buffers_are_fixed_witness :
  let w := worldAfter (demoFrameCalls ++ demoNextFrameCalls
                       ++ [CallBeginFrame (demoBegin VK_SUCCESS)]) demoWorld in
  commandBuffers (renderer w) = [101; 102] /\ currentSlot w = Some 101.
Proof.
  assert (Halloc : allocationContract 2 demoConstructor).
  { split; [reflexivity|]. repeat constructor; discriminate. }
  exact (slot_buffers_are_fixed 2 eq_refl demoConstructor demoWindow 0
           demoWorld
           (worldAfter (demoFrameCalls ++ demoNextFrameCalls
                        ++ [CallBeginFrame (demoBegin VK_SUCCESS)]) demoWorld)
           (demoFrameCalls ++ demoNextFrameCalls
            ++ [CallBeginFrame (demoBegin VK_SUCCESS)])
           (observed (demoFrameCalls ++ demoNextFrameCalls
                      ++ [CallBeginFrame (demoBegin VK_SUCCESS)]) demoWorld)
           Halloc eq_refl eq_refl).
Defined.
